(** * The gin collectors of windows_exporter

    A shallow embedding of
      - src/pkg/collector/ginprocess.go   (GinProcessCollector, labels pid/name),
      - src/unnamed/part_000              (GinProcessCollector, five labels),
      - src/unnamed/part_001              (GinWebAppCollector),
    and of the pieces of the Go runtime they call ([strings], [strconv], the
    float64/uint64 conversions).

    Go strings are byte sequences: they are [string] here (a list of 8-bit
    characters).  A float64 is a primitive binary64 [float].  Go's [error]
    results are [option error], [None] being [nil].  The Prometheus client
    is modelled by its effect on label tuples that are valid for it (the
    right number of values, valid UTF-8), which is what the perflib and
    process sources deliver. *)

From Stdlib Require Import ZArith Lia Ascii String.
From Stdlib Require Import Floats.PrimFloat Floats.SpecFloat Floats.FloatOps.
From stdpp Require Import gmap strings list fin_maps.

Local Open Scope Z_scope.

(** ** Go values *)

Inductive error : Type := Err (msg : string).

(** A Go call returning [(T, error)]: both components are always there, and
    the caller chooses whether it looks at the value when the error is set. *)
Definition result (T : Type) : Type := (T * option error)%type.

Module Go.

(** *** package strings *)

(** [strings.HasPrefix(s, prefix)]. *)
Fixpoint HasPrefix (s prefix : string) {struct prefix} : bool :=
  match prefix with
  | EmptyString => true
  | String a prefix' =>
      match s with
      | EmptyString => false
      | String b s' => if Ascii.eqb a b then HasPrefix s' prefix' else false
      end
  end.

(** [strings.Index(s, substr)]: the byte offset of the first occurrence,
    [-1] when there is none. *)
Fixpoint Index (s substr : string) : Z :=
  if HasPrefix s substr then 0
  else match s with
       | EmptyString => -1
       | String _ s' => let i := Index s' substr in if i <? 0 then -1 else i + 1
       end.

(** [strings.Contains(s, substr)] is [Index(s, substr) >= 0]. *)
Definition Contains (s substr : string) : bool := 0 <=? Index s substr.

(** The scan of [strings.ToLower]: is every byte below [utf8.RuneSelf], and
    is there an upper-case ASCII letter. *)
Definition isASCIIByte (c : ascii) : bool := (nat_of_ascii c <? 128)%nat.

Definition isUpperByte (c : ascii) : bool :=
  ((65 <=? nat_of_ascii c) && (nat_of_ascii c <=? 90))%nat.

Fixpoint isASCII (s : string) : bool :=
  match s with
  | EmptyString => true
  | String c s' => isASCIIByte c && isASCII s'
  end.

Fixpoint hasUpper (s : string) : bool :=
  match s with
  | EmptyString => false
  | String c s' => isUpperByte c || hasUpper s'
  end.

(** [c += 'a' - 'A'] on the upper-case letters. *)
Definition lowerByte (c : ascii) : ascii :=
  if isUpperByte c then ascii_of_nat (nat_of_ascii c + 32) else c.

Fixpoint lowerBytes (s : string) : string :=
  match s with
  | EmptyString => EmptyString
  | String c s' => String (lowerByte c) (lowerBytes s')
  end.

Section ToLower.
(** [strings.Map(unicode.ToLower, s)], the path [strings.ToLower] takes on
    a string with a byte outside ASCII.  The Unicode case tables are not
    part of the sources: the mapping is a parameter. *)
Variable mapUnicodeToLower : string -> string.

Definition ToLower (s : string) : string :=
  if isASCII s then (if hasUpper s then lowerBytes s else s)
  else mapUnicodeToLower s.
End ToLower.

(** [strings.ReplaceAll(s, old, new)] for a non-empty [old]: the
    occurrences of [old] are found left to right, each search starting
    after the previous occurrence.  [skip] counts the bytes of the
    occurrence just replaced that are still to be stepped over. *)
Fixpoint replaceFrom (old new : string) (skip : nat) (s : string) : string :=
  match s with
  | EmptyString => EmptyString
  | String c s' =>
      match skip with
      | S k => replaceFrom old new k s'
      | O =>
          if HasPrefix s old
          then new +:+ replaceFrom old new (String.length old - 1) s'
          else String c (replaceFrom old new O s')
      end
  end.

(** With an empty [old] Go inserts [new] before every rune and at the end;
    the collectors never pass one, and the model returns [s] there. *)
Definition ReplaceAll (s old new : string) : string :=
  match old with
  | EmptyString => s
  | _ => if String.eqb old new then s else replaceFrom old new O s
  end.

(** *** package strconv *)

Definition digitByte (d : Z) : ascii := ascii_of_nat (48 + Z.to_nat d).

(** [formatBits] in base 10: the digits are produced from the least
    significant one into a buffer that is filled from its end.  Go writes
    two digits per turn from a table and stops at [us < 100]; the digits are
    the same.  [fuel] is the room in the buffer. *)
Fixpoint formatBits (fuel : nat) (u : Z) (acc : string) : string :=
  match fuel with
  | O => acc
  | S k =>
      if u <? 10 then String (digitByte u) acc
      else formatBits k (u / 10) (String (digitByte (u mod 10)) acc)
  end.

(** [strconv.FormatUint(u, 10)] for [0 <= u < 2^64] (at most 20 digits). *)
Definition FormatUint (u : Z) : string := formatBits 20 u EmptyString.

(** [strconv.Itoa(i)], that is [FormatInt(int64(i), 10)]. *)
Definition Itoa (i : Z) : string :=
  if i <? 0 then String "-"%char (FormatUint (- i)) else FormatUint i.

(** *** conversions between float64 and uint64 *)

(** [float64(u)] for an unsigned integer: rounded to the nearest binary64. *)
Definition float64_of_uint64 (u : Z) : float :=
  SF2Prim (binary_normalize prec emax u 0 false).

(** The integer part of a finite float (the fraction is discarded). *)
Definition truncate (f : float) : option Z :=
  match Prim2SF f with
  | S754_zero _ => Some 0
  | S754_finite s m e =>
      let a := Z.shiftl (Z.pos m) e in Some (if s then - a else a)
  | _ => None
  end.

Section Uint64.
(** The Go specification leaves [uint64(f)] implementation-dependent when
    the integer part of [f] is not a uint64 (NaN, infinities, too large or
    negative): the conversion succeeds with some uint64. *)
Variable unrepresentable : float -> Z.

Definition uint64_of_float64 (f : float) : Z :=
  match truncate f with
  | Some t =>
      if (0 <=? t) && (t <? 2 ^ 64) then t else unrepresentable f mod 2 ^ 64
  | None => unrepresentable f mod 2 ^ 64
  end.
End Uint64.

End Go.

(** ** The Prometheus client, as the collectors use it *)

Module prometheus.

Inductive ValueType : Type := CounterValue | GaugeValue.

(** [prometheus.BuildFQName]: the non-empty components joined by "_"; an
    empty [name] gives the empty string. *)
Definition BuildFQName (namespace subsystem name : string) : string :=
  match name with
  | EmptyString => EmptyString
  | _ =>
      match namespace, subsystem with
      | EmptyString, EmptyString => name
      | EmptyString, _ => subsystem +:+ "_" +:+ name
      | _, EmptyString => namespace +:+ "_" +:+ name
      | _, _ => namespace +:+ "_" +:+ subsystem +:+ "_" +:+ name
      end
  end.

Record Desc : Type := NewDesc
  { fqName : string; help : string; variableLabels : list string }.

(** What a consumer of the channel reads off a [prometheus.Metric]. *)
Record Metric : Type := MustNewConstMetric
  { desc : Desc; valueType : ValueType; value : float;
    labelValues : list string }.

Record GaugeOpts : Type :=
  { Namespace : string; Subsystem : string; Name : string; Help : string }.

(** A [*prometheus.GaugeVec]: its descriptor and the gauges created so far,
    one per tuple of label values. *)
Record GaugeVec : Type :=
  { gvDesc : Desc; gvMetrics : gmap (list string) float }.

Definition NewGaugeVec (opts : GaugeOpts) (labelNames : list string) : GaugeVec :=
  {| gvDesc := NewDesc (BuildFQName (Namespace opts) (Subsystem opts) (Name opts))
                       (Help opts) labelNames;
     gvMetrics := ∅ |}.

(** [v.Reset()] deletes every gauge of the vector. *)
Definition Reset (v : GaugeVec) : GaugeVec :=
  {| gvDesc := gvDesc v; gvMetrics := ∅ |}.

(** [v.WithLabelValues(lvs...).Set(x)]: the gauge of [lvs] is created when
    it is not there, and set. *)
Definition WithLabelValues_Set (v : GaugeVec) (lvs : list string) (x : float) : GaugeVec :=
  {| gvDesc := gvDesc v; gvMetrics := <[lvs := x]> (gvMetrics v) |}.

(** [v.Collect(ch)] sends every gauge of the vector.  Go ranges over a map
    in no particular order; the model sends them in the order of
    [map_to_list], and nothing below depends on it. *)
Definition Collect (v : GaugeVec) : list Metric :=
  (fun kv => MustNewConstMetric (gvDesc v) GaugeValue kv.2 kv.1)
    <$> map_to_list (gvMetrics v).

End prometheus.

(** ** The process snapshot source (gopsutil) *)

Module process.

Record MemoryInfoStat : Type := { RSS : Z }.

(** One [*process.Process]: its pid (an int32) and what each of its methods
    returns when the collector calls it.  [MemoryInfo] returns a pointer;
    it is read only when the error is [nil], and gopsutil then returns a
    valid one. *)
Record Process : Type :=
  { Pid : Z;
    Name : result string;
    Username : result string;
    Cmdline : result string;
    Status : result (list string);
    CPUPercent : result float;
    MemoryInfo : result MemoryInfoStat }.

End process.

Definition errIsNil {T : Type} (r : result T) : bool :=
  match r.2 with None => true | Some _ => false end.

(** ** GinProcessCollector *)

Module GinProcessCommon.
Import prometheus.

(** The collector after [Build]: both vectors exist.  ([Collect] on a
    collector that was never built dereferences a nil vector; that call is
    outside the model.) *)
Record GinProcessCollector : Type :=
  { cpuPercent : GaugeVec; memoryMB : GaugeVec }.

(** The gauges of each vector, by label values. *)
Definition cpuMap (c : GinProcessCollector) : gmap (list string) float :=
  gvMetrics (cpuPercent c).

Definition memMap (c : GinProcessCollector) : gmap (list string) float :=
  gvMetrics (memoryMB c).

(** [float64(mem.RSS) / 1024 / 1024]. *)
Definition rssMB (mem : process.MemoryInfoStat) : float :=
  (Go.float64_of_uint64 (process.RSS mem) / 1024 / 1024)%float.

Section Collect.
(** The label names of the two vectors and the label values of a process
    (the arguments of both [WithLabelValues] calls). *)
Variable labelNames : list string.
Variable labelsOf : process.Process -> list string.

Definition build : GinProcessCollector :=
  {| cpuPercent :=
       NewGaugeVec {| Namespace := "windows"; Subsystem := "ginprocess";
                      Name := "cpu_percent";
                      Help := "CPU utilization percent per process" |}
                   labelNames;
     memoryMB :=
       NewGaugeVec {| Namespace := "windows"; Subsystem := "ginprocess";
                      Name := "memory_mb";
                      Help := "Memory usage in MB per process" |}
                   labelNames |}.

(** One turn of [for _, p := range procs]. *)
Definition visit (c : GinProcessCollector) (p : process.Process) : GinProcessCollector :=
  let lvs := labelsOf p in
  let c1 :=
    if errIsNil (process.CPUPercent p)
    then {| cpuPercent := WithLabelValues_Set (cpuPercent c) lvs (process.CPUPercent p).1;
            memoryMB := memoryMB c |}
    else c in
  if errIsNil (process.MemoryInfo p)
  then {| cpuPercent := cpuPercent c1;
          memoryMB := WithLabelValues_Set (memoryMB c1) lvs (rssMB (process.MemoryInfo p).1) |}
  else c1.

(** [Collect]: the collector after the call, what was sent on [ch], and
    the error returned.  [procs] is what [process.Processes()] returns. *)
Definition collect (c : GinProcessCollector) (procs : result (list process.Process))
  : GinProcessCollector * list Metric * option error :=
  let c0 := {| cpuPercent := Reset (cpuPercent c);
               memoryMB := Reset (memoryMB c) |} in
  match procs.2 with
  | Some err => (c0, [], Some err)
  | None =>
      let c1 := foldl visit c0 procs.1 in
      (c1, prometheus.Collect (cpuPercent c1) ++ prometheus.Collect (memoryMB c1), None)
  end.
End Collect.

End GinProcessCommon.

(** *** src/pkg/collector/ginprocess.go *)

Module GinProcess.
Import prometheus.
Export GinProcessCommon.

Definition labelNames : list string := ["pid"; "name"].

Definition Build : GinProcessCollector * option error :=
  (build labelNames, None).

(** [pid := strconv.Itoa(int(p.Pid))] and [name, _ := p.Name()]. *)
Definition labelsOf (p : process.Process) : list string :=
  let pid := Go.Itoa (process.Pid p) in
  let name := (process.Name p).1 in
  [pid; name].

Definition Collect := collect labelsOf.

End GinProcess.

(** *** src/unnamed/part_000: the collector with five labels *)

Module GinProcessLabeled.
Import prometheus.
Export GinProcessCommon.

Definition labelNames : list string :=
  ["pid"; "name"; "username"; "cmdline"; "status"].

Definition Build : GinProcessCollector * option error :=
  (build labelNames, None).

Definition labelsOf (p : process.Process) : list string :=
  let pid := Go.Itoa (process.Pid p) in
  let name := (process.Name p).1 in
  let username := if errIsNil (process.Username p) then (process.Username p).1 else "unknown" in
  let cmdline := if errIsNil (process.Cmdline p) then (process.Cmdline p).1 else "" in
  let status := if errIsNil (process.Status p) then (process.Status p).1 else ["unknown"] in
  let statusStr := match status with s :: _ => s | [] => "" end in
  [pid; name; username; cmdline; statusStr].

Definition Collect := collect labelsOf.

End GinProcessLabeled.

(** ** The performance counter source (internal/pdh) and the logger *)

Module pdh.

(** A [*pdh.Collector]: the query NewCollector opened. *)
Record Collector : Type := { object : string; instances : list string }.

End pdh.

Module slog.

Inductive Logger : Type := NewLogger (name : string).

Inductive Level : Type := LevelWarn.

(** [logger.Warn(msg, "err", err)]. *)
Record Record_ : Type :=
  { level : Level; msg : string; attrErr : option error }.

End slog.

(** ** GinWebAppCollector (src/unnamed/part_001) *)

Module GinWebApp.
Import prometheus.

Module aspNetValues.
Record t : Type :=
  { Name : string;
    RequestsSec : float;
    RequestsExecuting : float;
    RequestsTotal : float;
    ErrorsTotal : float;
    OutputCacheTurnover : float }.
End aspNetValues.

Module processValues.
Record t : Type :=
  { Name : string;
    PercentProcessorTime : float;
    WorkingSetPrivate : float;
    IOReadBytesSec : float;
    IOWriteBytesSec : float;
    IDProcess : float }.
End processValues.

Module netClrValues.
Record t : Type :=
  { Name : string;
    PercentTimeInGC : float;
    BytesInAllHeaps : float;
    Gen0Collections : float;
    Gen1Collections : float;
    Gen2Collections : float }.
End netClrValues.

(** What the package internal/pdh, which is not among the sources, does
    when the collector calls it: the constant [pdh.InstancesAll], what
    [pdh.NewCollector] returns for an object name and an instance filter
    (a collector, an error, or in principle both), and what the [Collect]
    method of a pdh collector returns (the slice it filled and its error)
    for each of the three value types. *)
Record Host : Type :=
  { InstancesAll : list string;
    NewCollector : string -> list string -> option pdh.Collector * option error;
    collectAspNet : pdh.Collector -> result (list aspNetValues.t);
    collectProcess : pdh.Collector -> result (list processValues.t);
    collectNetClr : pdh.Collector -> result (list netClrValues.t) }.

(** What a run leaves behind: the metrics sent on [ch], the records
    logged, the [NewCollector] calls and the [Collect] calls made on pdh
    collectors, each in the order they happened. *)
Record Effects : Type :=
  { ch : list Metric;
    logged : list slog.Record_;
    opened : list (string * list string);
    sampled : list pdh.Collector }.

Definition noEffects : Effects :=
  {| ch := []; logged := []; opened := []; sampled := [] |}.

Definition M (A : Type) : Type := Effects -> A * Effects.

Definition ret {A : Type} (a : A) : M A := fun e => (a, e).

Definition bind {A B : Type} (m : M A) (k : A -> M B) : M B :=
  fun e => let r := m e in k r.1 r.2.

Declare Scope go_scope.
Delimit Scope go_scope with go.
Notation "x <- m ;; k" := (bind m (fun x => k))
  (at level 100, m at next level, right associativity) : go_scope.
Notation "m ;; k" := (bind m (fun _ => k))
  (at level 100, right associativity) : go_scope.
Local Open Scope go_scope.

(** [ch <- m]. *)
Definition send (m : Metric) : M unit :=
  fun e => (tt, {| ch := ch e ++ [m]; logged := logged e;
                   opened := opened e; sampled := sampled e |}).

Definition Warn (text : string) (err : option error) : M unit :=
  fun e => (tt, {| ch := ch e;
                   logged := logged e ++ [{| slog.level := slog.LevelWarn;
                                             slog.msg := text;
                                             slog.attrErr := err |}];
                   opened := opened e; sampled := sampled e |}).

(** [for _, d := range data { body }]. *)
Fixpoint forEach {A : Type} (data : list A) (body : A -> M unit) : M unit :=
  match data with
  | [] => ret tt
  | d :: data' => body d ;; forEach data' body
  end.

Record GinWebAppCollector : Type :=
  { logger : option slog.Logger;
    aspNetColl : option pdh.Collector;
    processColl : option pdh.Collector;
    netClrColl : option pdh.Collector }.

Definition NewGinWebApp : GinWebAppCollector :=
  {| logger := None; aspNetColl := None; processColl := None; netClrColl := None |}.

Definition normalizeAspNetInstanceName (name : string) : string :=
  let name := Go.ReplaceAll name "_LM_W3SVC_1_ROOT_" "" in
  let name := Go.ReplaceAll name "_LM_W3SVC_" "site_" in
  name.

Section Collector.
Variable host : Host.
Variable mapUnicodeToLower : string -> string.
Variable unrepresentable : float -> Z.

Definition formatPID (f : float) : string :=
  Go.FormatUint (Go.uint64_of_float64 unrepresentable f).

Definition pdhNewCollector (obj : string) (inst : list string)
  : M (option pdh.Collector * option error) :=
  fun e => (NewCollector host obj inst,
            {| ch := ch e; logged := logged e;
               opened := opened e ++ [(obj, inst)]; sampled := sampled e |}).

Definition pdhCollect {T : Type} (read : pdh.Collector -> result (list T))
  (h : pdh.Collector) : M (result (list T)) :=
  fun e => (read h,
            {| ch := ch e; logged := logged e;
               opened := opened e; sampled := sampled e ++ [h] |}).

Definition Build (c : GinWebAppCollector) (lg : slog.Logger)
  : M (GinWebAppCollector * option error) :=
  r <- pdhNewCollector "ASP.NET Applications" (InstancesAll host) ;;
  asp <- (match r.2 with
          | Some _ =>
              r' <- pdhNewCollector "ASP.NET v4.0.30319" (InstancesAll host) ;;
              match r'.2 with
              | Some err => Warn "Failed to initialize ASP.NET collector" (Some err)
              | None => ret tt
              end ;;
              ret r'.1
          | None => ret r.1
          end) ;;
  rp <- pdhNewCollector "Process" ["w3wp"] ;;
  match rp.2 with
  | Some err => Warn "Failed to initialize Process collector" (Some err)
  | None => ret tt
  end ;;
  rc <- pdhNewCollector ".NET CLR Memory" ["w3wp"] ;;
  match rc.2 with
  | Some err => Warn "Failed to initialize .NET CLR collector" (Some err)
  | None => ret tt
  end ;;
  ret ({| logger := Some lg; aspNetColl := asp;
          processColl := rp.1; netClrColl := rc.1 |}, None).

Definition gauge (name helpText : string) (labels : list string)
  (v : float) (lvs : list string) : Metric :=
  MustNewConstMetric
    (NewDesc (BuildFQName "windows" "ginwebapp" name) helpText labels)
    GaugeValue v lvs.

Definition counter (name helpText : string) (labels : list string)
  (v : float) (lvs : list string) : Metric :=
  MustNewConstMetric
    (NewDesc (BuildFQName "windows" "ginwebapp" name) helpText labels)
    CounterValue v lvs.

(** The bodies of the three [range] loops of [Collect]. *)
Definition emitAspNet (d : aspNetValues.t) : M unit :=
  if Go.Contains (Go.ToLower mapUnicodeToLower (aspNetValues.Name d)) "__total__"
  then ret tt
  else
    let labelName := normalizeAspNetInstanceName (aspNetValues.Name d) in
    send (gauge "requests_sec" "Requests per second" ["app_path"]
            (aspNetValues.RequestsSec d) [labelName]) ;;
    send (gauge "requests_executing" "Current executing requests" ["app_path"]
            (aspNetValues.RequestsExecuting d) [labelName]) ;;
    send (counter "requests_total" "Total requests processed" ["app_path"]
            (aspNetValues.RequestsTotal d) [labelName]).

Definition emitProcess (d : processValues.t) : M unit :=
  let pid := formatPID (processValues.IDProcess d) in
  send (gauge "process_cpu_percent" "Processor time percentage" ["process"; "pid"]
          (processValues.PercentProcessorTime d) [processValues.Name d; pid]) ;;
  send (gauge "process_memory_bytes" "Working Set Private bytes" ["process"; "pid"]
          (processValues.WorkingSetPrivate d) [processValues.Name d; pid]) ;;
  send (gauge "process_io_bytes_sec" "Total IO bytes per second" ["process"; "pid"]
          (processValues.IOReadBytesSec d + processValues.IOWriteBytesSec d)%float
          [processValues.Name d; pid]).

Definition emitNetClr (d : netClrValues.t) : M unit :=
  if Go.Contains (netClrValues.Name d) "_Global_"
  then ret tt
  else
    send (gauge "dotnet_gc_time_percent" "Percentage of time in GC" ["process"]
            (netClrValues.PercentTimeInGC d) [netClrValues.Name d]) ;;
    send (gauge "dotnet_heap_bytes" "Bytes in all heaps" ["process"]
            (netClrValues.BytesInAllHeaps d) [netClrValues.Name d]).

(** [if coll != nil { var data []T; if err := coll.Collect(&data);
    err == nil { for _, d := range data { body } } }]. *)
Definition collectSource {T : Type} (coll : option pdh.Collector)
  (read : pdh.Collector -> result (list T)) (body : T -> M unit) : M unit :=
  match coll with
  | Some h =>
      r <- pdhCollect read h ;;
      if errIsNil r then forEach r.1 body else ret tt
  | None => ret tt
  end.

Definition Collect (c : GinWebAppCollector) : M (option error) :=
  collectSource (aspNetColl c) (collectAspNet host) emitAspNet ;;
  collectSource (processColl c) (collectProcess host) emitProcess ;;
  collectSource (netClrColl c) (collectNetClr host) emitNetClr ;;
  ret None.
End Collector.

End GinWebApp.

(** ** Vocabulary of the statements *)

Module Decimal.

Definition isDigit (c : ascii) : bool :=
  ((48 <=? nat_of_ascii c) && (nat_of_ascii c <=? 57))%nat.

Fixpoint allDigits (s : string) : bool :=
  match s with
  | EmptyString => true
  | String c s' => isDigit c && allDigits s'
  end.

(** The number a string of digits denotes in base 10. *)
Fixpoint valueFrom (a : Z) (s : string) : Z :=
  match s with
  | EmptyString => a
  | String c s' => valueFrom (a * 10 + (Z.of_nat (nat_of_ascii c) - 48)) s'
  end.

Definition value (s : string) : Z := valueFrom 0 s.

(** Not empty, and no zero in front of another digit. *)
Definition noLeadingZero (s : string) : bool :=
  match s with
  | EmptyString => false
  | String c r =>
      negb (Ascii.eqb c "0") || match r with EmptyString => true | _ => false end
  end.

(** The text of an unsigned integer: digits only, none of them a
    superfluous zero (so no sign and no fraction). *)
Definition isUnsignedText (s : string) : bool := allDigits s && noLeadingZero s.

End Decimal.

Module Float64.

(** Zero of either sign, a positive finite number or [+Inf]. *)
Definition nonNegative (f : float) : bool :=
  match Prim2SF f with
  | S754_zero _ => true
  | S754_infinity false => true
  | S754_finite false _ _ => true
  | _ => false
  end.

Definition finite (f : float) : bool :=
  match Prim2SF f with
  | S754_zero _ | S754_finite _ _ _ => true
  | _ => false
  end.

(** [n] is the integer part of the non-negative finite [f], which is
    [m * 2^e]: [n <= f < n + 1]. *)
Definition integerPart (f : float) (n : Z) : Prop :=
  match Prim2SF f with
  | S754_zero _ => n = 0
  | S754_finite false m e =>
      if 0 <=? e then n = Z.pos m * 2 ^ e
      else n * 2 ^ (- e) <= Z.pos m < (n + 1) * 2 ^ (- e)
  | _ => False
  end.

End Float64.

Module Cycle.

Section Labels.
Variable labelsOf : process.Process -> list string.

(** The label tuple [L] is set in the CPU vector (in the memory vector)
    during a cycle that sees the snapshot [snap]: the enumeration worked
    and a process with these labels read its value. *)
Definition setsCpu (snap : result (list process.Process)) (L : list string) : Prop :=
  snap.2 = None /\
  exists p, p ∈ snap.1 /\ labelsOf p = L /\ errIsNil (process.CPUPercent p) = true.

Definition setsMemory (snap : result (list process.Process)) (L : list string) : Prop :=
  snap.2 = None /\
  exists p, p ∈ snap.1 /\ labelsOf p = L /\ errIsNil (process.MemoryInfo p) = true.

(** No other record of the snapshot has the labels of [p]. *)
Definition identifies (procs : list process.Process) (p : process.Process) : Prop :=
  forall q, q ∈ procs -> labelsOf q = labelsOf p -> q = p.
End Labels.

End Cycle.

Module Run.
Import prometheus GinWebApp.

(** The measurements a loop body sends for one record. *)
Definition recordMetrics {T : Type} (body : T -> M unit) (d : T) : list Metric :=
  ch (body d noEffects).2.

(** What one source adds to the channel in a cycle, and the pdh collectors
    it samples. *)
Definition sourceMetrics {T : Type} (coll : option pdh.Collector)
  (read : pdh.Collector -> result (list T)) (body : T -> M unit) : list Metric :=
  match coll with
  | Some h => if errIsNil (read h) then flat_map (recordMetrics body) (read h).1 else []
  | None => []
  end.

Definition sourceSamples (coll : option pdh.Collector) : list pdh.Collector :=
  match coll with Some h => [h] | None => [] end.

(** A step that sends metrics and does nothing else. *)
Definition onlySends (m : M unit) : Prop :=
  forall e, m e = (tt, {| ch := ch e ++ ch (m noEffects).2; logged := logged e;
                          opened := opened e; sampled := sampled e |}).

(** The host in a cycle in which the ASP.NET source (the .NET CLR source)
    delivers the records [data]. *)
Definition withAspNetData (host : Host) (data : list aspNetValues.t) : Host :=
  {| InstancesAll := InstancesAll host;
     NewCollector := NewCollector host;
     collectAspNet := fun _ => (data, None);
     collectProcess := collectProcess host;
     collectNetClr := collectNetClr host |}.

Definition withNetClrData (host : Host) (data : list netClrValues.t) : Host :=
  {| InstancesAll := InstancesAll host;
     NewCollector := NewCollector host;
     collectAspNet := collectAspNet host;
     collectProcess := collectProcess host;
     collectNetClr := fun _ => (data, None) |}.

(** The convention of Go constructors: no collector beside an error. *)
Definition nilOnError (host : Host) : Prop :=
  forall obj inst, errIsNil (NewCollector host obj inst) = false ->
                   (NewCollector host obj inst).1 = None.

Definition warning (text : string) (err : option error) : slog.Record_ :=
  {| slog.level := slog.LevelWarn; slog.msg := text; slog.attrErr := err |}.

End Run.

(** ** Sample inputs *)

Module Scenario.
Import GinWebApp.

Definition readError : error := Err "access denied".

(** The process of the end-to-end scenario: pid 100, "w3wp", 12.5 % CPU,
    104857600 bytes resident. *)
Definition w3wp (user cmd : result string) (st : result (list string))
  : process.Process :=
  {| process.Pid := 100;
     process.Name := ("w3wp", None);
     process.Username := user;
     process.Cmdline := cmd;
     process.Status := st;
     process.CPUPercent := (12.5%float, None);
     process.MemoryInfo := ({| process.RSS := 104857600 |}, None) |}.

Definition w3wp0 : process.Process :=
  w3wp ("IIS APPPOOL\web", None) ("w3wp.exe -ap web", None) (["running"], None).

(** A process whose CPU read fails and whose memory read works. *)
Definition noCpu : process.Process :=
  {| process.Pid := 4;
     process.Name := ("System", None);
     process.Username := ("", Some readError);
     process.Cmdline := ("", Some readError);
     process.Status := ([], Some readError);
     process.CPUPercent := (0%float, Some readError);
     process.MemoryInfo := ({| process.RSS := 2097152 |}, None) |}.

(** A process whose memory read fails and whose CPU read works. *)
Definition noMemory : process.Process :=
  {| process.Pid := 8;
     process.Name := ("lsass", None);
     process.Username := ("SYSTEM", None);
     process.Cmdline := ("", Some readError);
     process.Status := (["sleep"], None);
     process.CPUPercent := (1.5%float, None);
     process.MemoryInfo := ({| process.RSS := 0 |}, Some readError) |}.

Definition aspRecord (name : string) (perSec executing total : float)
  : aspNetValues.t :=
  {| aspNetValues.Name := name;
     aspNetValues.RequestsSec := perSec;
     aspNetValues.RequestsExecuting := executing;
     aspNetValues.RequestsTotal := total;
     aspNetValues.ErrorsTotal := 0;
     aspNetValues.OutputCacheTurnover := 0 |}.

Definition workerRecord (name : string) (pid : float) : processValues.t :=
  {| processValues.Name := name;
     processValues.PercentProcessorTime := 3;
     processValues.WorkingSetPrivate := 4096;
     processValues.IOReadBytesSec := 10;
     processValues.IOWriteBytesSec := 20;
     processValues.IDProcess := pid |}.

Definition clrRecord (name : string) : netClrValues.t :=
  {| netClrValues.Name := name;
     netClrValues.PercentTimeInGC := 2;
     netClrValues.BytesInAllHeaps := 1024;
     netClrValues.Gen0Collections := 7;
     netClrValues.Gen1Collections := 3;
     netClrValues.Gen2Collections := 1 |}.

(** A host on which every object named in [present] opens, and whose
    three sources deliver the given samples. *)
Definition hostWith (present : list string)
  (asp : result (list aspNetValues.t))
  (proc : result (list processValues.t))
  (clr : result (list netClrValues.t)) : Host :=
  {| InstancesAll := ["*"];
     NewCollector := fun obj inst =>
       if bool_decide (obj ∈ present)
       then (Some {| pdh.object := obj; pdh.instances := inst |}, None)
       else (None, Some (Err "object not found"));
     collectAspNet := fun _ => asp;
     collectProcess := fun _ => proc;
     collectNetClr := fun _ => clr |}.

(** The collector [Build] leaves when everything opened. *)
Definition allLive : GinWebAppCollector :=
  {| logger := Some (slog.NewLogger "test");
     aspNetColl := Some {| pdh.object := "ASP.NET Applications"; pdh.instances := ["*"] |};
     processColl := Some {| pdh.object := "Process"; pdh.instances := ["w3wp"] |};
     netClrColl := Some {| pdh.object := ".NET CLR Memory"; pdh.instances := ["w3wp"] |} |}.


Definition asIs (s : string) : string := s.
Definition saturate (f : float) : Z := 2 ^ 64 - 1.

End Scenario.

(** ** The rest of the two collectors *)

Module GinProcessShell.
Import GinProcessCommon.

Definition GinProcessName : string := "ginprocess".

Definition GetName (c : GinProcessCollector) : string := GinProcessName.

(** [Close]: no cleanup required. *)
Definition Close (c : GinProcessCollector) : option error := None.

End GinProcessShell.

Module GinWebAppShell.
Import GinWebApp.

Definition GinWebAppName : string := "ginwebapp".

Definition GetName (c : GinWebAppCollector) : string := GinWebAppName.

Definition NewGinWebAppWithFlags : GinWebAppCollector := NewGinWebApp.

(** [if coll != nil { coll.Close() }]: the collectors closed. *)
Definition closeIfLive (coll : option pdh.Collector) : list pdh.Collector :=
  match coll with
  | Some h => [h]
  | None => []
  end.

(** [Close]: the pdh collectors closed, in the order of the calls, and the
    error returned. *)
Definition Close (c : GinWebAppCollector) : list pdh.Collector * option error :=
  (closeIfLive (aspNetColl c) ++ closeIfLive (processColl c)
   ++ closeIfLive (netClrColl c), None).

End GinWebAppShell.

(** ** Vocabulary of the further statements *)

Module Snapshot.
Import prometheus GinProcessCommon.

(** The values of an int32, the type of [p.Pid]. *)
Definition int32 (z : Z) : Prop := - 2 ^ 31 <= z < 2 ^ 31.

Definition cpuOk (p : process.Process) : Prop :=
  errIsNil (process.CPUPercent p) = true.

Definition memoryOk (p : process.Process) : Prop :=
  errIsNil (process.MemoryInfo p) = true.

Section Labels.
Variable labelsOf : process.Process -> list string.

(** The gauge a process stands for in each vector of the collector [c]. *)
Definition cpuGauge (c : GinProcessCollector) (p : process.Process) : Metric :=
  MustNewConstMetric (gvDesc (cpuPercent c)) GaugeValue
    (process.CPUPercent p).1 (labelsOf p).

Definition memoryGauge (c : GinProcessCollector) (p : process.Process) : Metric :=
  MustNewConstMetric (gvDesc (memoryMB c)) GaugeValue
    (rssMB (process.MemoryInfo p).1) (labelsOf p).

(** [out] is the snapshot rendered in full: first one CPU gauge for each
    process whose CPU read worked, these in any order, and after them one
    memory gauge for each process whose memory read worked, these in any
    order. *)
Definition rendered (c : GinProcessCollector) (procs : list process.Process)
  (out : list Metric) : Prop :=
  exists cpus mems,
    out = cpus ++ mems /\
    cpus ≡ₚ cpuGauge c <$> filter cpuOk procs /\
    mems ≡ₚ memoryGauge c <$> filter memoryOk procs.
End Labels.

(** Both vectors of [c] were made with the label names [names]. *)
Definition madeWith (names : list string) (c : GinProcessCollector) : Prop :=
  variableLabels (gvDesc (cpuPercent c)) = names /\
  variableLabels (gvDesc (memoryMB c)) = names.

End Snapshot.

Module Expected.
Import prometheus GinWebApp.

Section Sources.
Variable mapUnicodeToLower : string -> string.
Variable unrepresentable : float -> Z.

Definition keepAspNet (d : aspNetValues.t) : bool :=
  negb (Go.Contains (Go.ToLower mapUnicodeToLower (aspNetValues.Name d)) "__total__").

Definition keepNetClr (d : netClrValues.t) : bool :=
  negb (Go.Contains (netClrValues.Name d) "_Global_").

Definition aspNetMetrics (d : aspNetValues.t) : list Metric :=
  let app := normalizeAspNetInstanceName (aspNetValues.Name d) in
  [ gauge "requests_sec" "Requests per second" ["app_path"]
      (aspNetValues.RequestsSec d) [app];
    gauge "requests_executing" "Current executing requests" ["app_path"]
      (aspNetValues.RequestsExecuting d) [app];
    counter "requests_total" "Total requests processed" ["app_path"]
      (aspNetValues.RequestsTotal d) [app] ].

Definition processMetrics (d : processValues.t) : list Metric :=
  let pid := formatPID unrepresentable (processValues.IDProcess d) in
  let name := processValues.Name d in
  [ gauge "process_cpu_percent" "Processor time percentage" ["process"; "pid"]
      (processValues.PercentProcessorTime d) [name; pid];
    gauge "process_memory_bytes" "Working Set Private bytes" ["process"; "pid"]
      (processValues.WorkingSetPrivate d) [name; pid];
    gauge "process_io_bytes_sec" "Total IO bytes per second" ["process"; "pid"]
      (processValues.IOReadBytesSec d + processValues.IOWriteBytesSec d)%float
      [name; pid] ].

Definition netClrMetrics (d : netClrValues.t) : list Metric :=
  [ gauge "dotnet_gc_time_percent" "Percentage of time in GC" ["process"]
      (netClrValues.PercentTimeInGC d) [netClrValues.Name d];
    gauge "dotnet_heap_bytes" "Bytes in all heaps" ["process"]
      (netClrValues.BytesInAllHeaps d) [netClrValues.Name d] ].

(** The records a source delivers in a cycle: none when it is nil or its
    sample failed. *)
Definition delivered {T : Type} (coll : option pdh.Collector)
  (read : pdh.Collector -> result (list T)) : list T :=
  match coll with
  | Some h => if errIsNil (read h) then (read h).1 else []
  | None => []
  end.

(** What a cycle is to send, source by source and record by record. *)
Definition cycleMetrics (host : Host) (c : GinWebAppCollector) : list Metric :=
  flat_map aspNetMetrics
    (List.filter keepAspNet (delivered (aspNetColl c) (collectAspNet host)))
  ++ flat_map processMetrics (delivered (processColl c) (collectProcess host))
  ++ flat_map netClrMetrics
       (List.filter keepNetClr (delivered (netClrColl c) (collectNetClr host))).
End Sources.

(** A well-formed measurement of this collector: as many label values as
    label names, a name in the collector's namespace, and the counter kind
    for the request total only. *)
Definition wellFormed (m : Metric) : Prop :=
  length (labelValues m) = length (variableLabels (desc m)) /\
  Go.HasPrefix (fqName (desc m)) "windows_ginwebapp_" = true /\
  (valueType m = CounterValue <->
   fqName (desc m) = "windows_ginwebapp_requests_total").

End Expected.

Module Float64Edge.

(** Minus zero, or a negative float above -1: its integer part is zero. *)
Definition negativeFraction (f : float) : bool :=
  match Prim2SF f with
  | S754_zero true => true
  | S754_finite true m e => (e <? 0) && (Z.pos m <? 2 ^ (- e))
  | _ => false
  end.

End Float64Edge.

(** * Properties *)

(** ** The Go runtime model *)

Module GoFacts.
Import Go.

Lemma append_nil (b : string) : "" +:+ b = b.
Proof. reflexivity. Qed.

Lemma append_cons (x : ascii) (a b : string) :
  String x a +:+ b = String x (a +:+ b).
Proof. reflexivity. Qed.

Lemma append_assoc (a b c : string) : (a +:+ b) +:+ c = a +:+ b +:+ c.
Proof.
  induction a as [|x a IH]; [reflexivity |].
  rewrite !append_cons. now f_equal.
Qed.

Lemma append_empty_r (a : string) : a +:+ "" = a.
Proof.
  induction a as [|x a IH]; [reflexivity |].
  rewrite append_cons. now f_equal.
Qed.

Lemma HasPrefix_app (p t : string) : HasPrefix (p +:+ t) p = true.
Proof.
  induction p as [|a p IH]; [reflexivity |].
  rewrite append_cons. simpl. now rewrite Ascii.eqb_refl.
Qed.

Lemma HasPrefix_inv (s p : string) :
  HasPrefix s p = true -> exists t, s = p +:+ t.
Proof.
  revert s; induction p as [|a p IH]; intros s H; simpl in H.
  - now exists s.
  - destruct s as [|b s]; [discriminate |].
    destruct (Ascii.eqb a b) eqn:E; [| discriminate].
    apply Ascii.eqb_eq in E; subst b.
    destruct (IH _ H) as [t ->]. now exists t.
Qed.

Lemma Index_lower (s sub : string) : -1 <= Index s sub.
Proof.
  induction s as [|c s IH]; simpl.
  - destruct (HasPrefix "" sub); lia.
  - destruct (HasPrefix (String c s) sub); [lia |].
    destruct (Index s sub <? 0) eqn:E; [lia |].
    apply Z.ltb_ge in E. lia.
Qed.

Lemma Contains_cons (c : ascii) (s sub : string) :
  Contains (String c s) sub = HasPrefix (String c s) sub || Contains s sub.
Proof.
  unfold Contains; simpl.
  destruct (HasPrefix (String c s) sub); [reflexivity |]; simpl.
  destruct (Index s sub <? 0) eqn:E.
  - apply Z.ltb_lt in E. symmetry. apply Z.leb_gt. assumption.
  - apply Z.ltb_ge in E. transitivity true.
    + apply Z.leb_le. lia.
    + symmetry. now apply Z.leb_le.
Qed.

(** [Contains] finds exactly the strings that have [sub] somewhere inside. *)
Lemma Contains_intro (pre sub post : string) :
  Contains (pre +:+ sub +:+ post) sub = true.
Proof.
  induction pre as [|c pre IH].
  - rewrite append_nil. unfold Contains.
    destruct (sub +:+ post) as [|c r] eqn:E.
    + destruct sub; [reflexivity | discriminate].
    + fold (Contains (String c r) sub).
      rewrite Contains_cons, <- E, HasPrefix_app. reflexivity.
  - rewrite append_cons, Contains_cons, IH. apply orb_true_r.
Qed.

Lemma Contains_inv (s sub : string) :
  Contains s sub = true -> exists pre post, s = pre +:+ sub +:+ post.
Proof.
  induction s as [|c s IH]; intros H.
  - unfold Contains in H; simpl in H.
    destruct (HasPrefix "" sub) eqn:E; [| discriminate].
    apply HasPrefix_inv in E as [t E]. exists "", t. exact E.
  - rewrite Contains_cons in H. apply orb_true_iff in H as [H | H].
    + apply HasPrefix_inv in H as [t E]. exists "", t. exact E.
    + destruct (IH H) as (pre & post & ->). now exists (String c pre), post.
Qed.

(** A string without the shorter token has none of the longer ones. *)
Lemma Contains_longer (s short more : string) :
  Contains s short = false -> Contains s (short +:+ more) = false.
Proof.
  intros H. destruct (Contains s (short +:+ more)) eqn:E; [| reflexivity].
  apply Contains_inv in E as (pre & post & ->).
  rewrite append_assoc in H. rewrite Contains_intro in H. discriminate.
Qed.

Lemma Contains_tail (c : ascii) (s sub : string) :
  Contains (String c s) sub = false -> Contains s sub = false.
Proof. rewrite Contains_cons. now intros [_ H]%orb_false_iff. Qed.

(** *** ReplaceAll *)

Lemma replaceFrom_skip (old new x rest : string) :
  replaceFrom old new (String.length x) (x +:+ rest) = replaceFrom old new O rest.
Proof.
  induction x as [|c x IH]; [| exact IH].
  rewrite append_nil. destruct rest; reflexivity.
Qed.

Lemma replaceFrom_occurrence (old new rest : string) :
  old <> "" ->
  replaceFrom old new O (old +:+ rest) = new +:+ replaceFrom old new O rest.
Proof.
  intros Hne. destruct old as [|a old]; [congruence |].
  rewrite append_cons. cbn [replaceFrom].
  rewrite <- append_cons, HasPrefix_app. cbn [String.length].
  rewrite Nat.sub_1_r; cbn [Nat.pred].
  now rewrite replaceFrom_skip.
Qed.

Lemma replaceFrom_absent (old new s : string) :
  Contains s old = false -> replaceFrom old new O s = s.
Proof.
  induction s as [|c s IH]; intros H; [reflexivity |].
  rewrite Contains_cons in H. apply orb_false_iff in H as [Hp Hc].
  cbn [replaceFrom]. rewrite Hp, (IH Hc). reflexivity.
Qed.

Lemma ReplaceAll_occurrence (old new rest : string) :
  old <> "" -> old <> new ->
  ReplaceAll (old +:+ rest) old new = new +:+ ReplaceAll rest old new.
Proof.
  intros Hne Hd. unfold ReplaceAll.
  destruct old as [|a old]; [congruence |].
  destruct (String.eqb (String a old) new) eqn:E.
  - apply String.eqb_eq in E. congruence.
  - now apply replaceFrom_occurrence.
Qed.

Lemma ReplaceAll_absent (s old new : string) :
  Contains s old = false -> ReplaceAll s old new = s.
Proof.
  intros H. unfold ReplaceAll. destruct old as [|a old]; [reflexivity |].
  destruct (String.eqb (String a old) new); [reflexivity |].
  now apply replaceFrom_absent.
Qed.

(** *** ToLower on ASCII names *)

Lemma lowerBytes_no_upper (s : string) : hasUpper s = false -> lowerBytes s = s.
Proof.
  induction s as [|c s IH]; [reflexivity |]. cbn [hasUpper lowerBytes].
  intros [Hc Hs]%orb_false_iff. unfold lowerByte. now rewrite Hc, (IH Hs).
Qed.

Lemma ToLower_ascii (mapUnicodeToLower : string -> string) (s : string) :
  isASCII s = true -> ToLower mapUnicodeToLower s = lowerBytes s.
Proof.
  intros H. unfold ToLower. rewrite H.
  destruct (hasUpper s) eqn:E; [reflexivity |].
  symmetry. now apply lowerBytes_no_upper.
Qed.

Lemma lowerBytes_app (a b : string) :
  lowerBytes (a +:+ b) = lowerBytes a +:+ lowerBytes b.
Proof.
  induction a as [|c a IH]; [reflexivity |].
  rewrite append_cons. cbn [lowerBytes]. now rewrite IH, append_cons.
Qed.

(** On an ASCII name the test of the ASP.NET loop finds the marker in any
    mix of cases. *)
Lemma Contains_ToLower_any_case (mapUnicodeToLower : string -> string)
  (pre m post marker : string) :
  isASCII (pre +:+ m +:+ post) = true -> lowerBytes m = marker ->
  Contains (ToLower mapUnicodeToLower (pre +:+ m +:+ post)) marker = true.
Proof.
  intros Ha <-. rewrite ToLower_ascii by exact Ha.
  rewrite !lowerBytes_app. apply Contains_intro.
Qed.

End GoFacts.

(** *** FormatUint *)

Module StrconvFacts.
Import Go Decimal GoFacts.

Lemma digitByte_small (d : Z) :
  0 <= d < 10 ->
  isDigit (digitByte d) = true /\
  Z.of_nat (nat_of_ascii (digitByte d)) - 48 = d /\
  (Ascii.eqb (digitByte d) "0" = true -> d = 0).
Proof.
  intros H.
  assert (d = 0 \/ d = 1 \/ d = 2 \/ d = 3 \/ d = 4 \/ d = 5 \/ d = 6 \/
          d = 7 \/ d = 8 \/ d = 9) as D by lia.
  repeat (destruct D as [-> | D]); try subst d;
    (split; [reflexivity | split; [reflexivity |]]);
    intros E; vm_compute in E; first [reflexivity | discriminate].
Qed.

Lemma allDigits_app (a b : string) :
  allDigits (a +:+ b) = allDigits a && allDigits b.
Proof.
  induction a as [|c a IH]; [reflexivity |].
  rewrite append_cons. cbn [allDigits]. rewrite IH. apply andb_assoc.
Qed.

Lemma valueFrom_app (a b : string) (x : Z) :
  valueFrom x (a +:+ b) = valueFrom (valueFrom x a) b.
Proof.
  revert x; induction a as [|c a IH]; intros x; [reflexivity |].
  rewrite append_cons. cbn [valueFrom]. apply IH.
Qed.

(** What [formatBits] puts in front of the buffer. *)
Lemma formatBits_digits (fuel : nat) :
  forall (u : Z) (acc : string),
    (0 < fuel)%nat -> 0 <= u < 10 ^ Z.of_nat fuel ->
    exists ds,
      formatBits fuel u acc = ds +:+ acc /\
      allDigits ds = true /\ noLeadingZero ds = true /\ value ds = u.
Proof.
  induction fuel as [|k IH]; intros u acc Hf Hu; [lia |].
  cbn [formatBits]. destruct (u <? 10) eqn:E.
  - apply Z.ltb_lt in E.
    destruct (digitByte_small u) as (D1 & D2 & _); [lia |].
    exists (String (digitByte u) ""). repeat split.
    + cbn [allDigits]. now rewrite D1.
    + cbn. apply orb_true_r.
    + unfold value. cbn [valueFrom]. lia.
  - apply Z.ltb_ge in E.
    assert (0 < k)%nat as Hk.
    { destruct k; [| lia]. change (10 ^ Z.of_nat 1) with 10 in Hu. lia. }
    assert (0 <= u / 10 < 10 ^ Z.of_nat k) as Hq.
    { split; [apply Z.div_pos; lia |].
      apply Z.div_lt_upper_bound; [lia |].
      replace (Z.of_nat (S k)) with (Z.succ (Z.of_nat k)) in Hu by lia.
      rewrite Z.pow_succ_r in Hu by lia. lia. }
    destruct (IH (u / 10) (String (digitByte (u mod 10)) acc) Hk Hq)
      as (ds & Heq & Hd & Hz & Hv).
    destruct (digitByte_small (u mod 10)) as (D1 & D2 & _).
    { apply Z.mod_pos_bound; lia. }
    exists (ds +:+ String (digitByte (u mod 10)) ""). repeat split.
    + rewrite Heq, append_assoc. reflexivity.
    + rewrite allDigits_app, Hd. cbn [allDigits]. now rewrite D1.
    + assert (1 <= value ds) as Hge.
      { rewrite Hv. apply Z.div_le_lower_bound; lia. }
      destruct ds as [|c r]; [discriminate |].
      rewrite append_cons. cbn [noLeadingZero] in Hz |- *.
      destruct (Ascii.eqb c "0") eqn:Ec; [| reflexivity].
      apply Ascii.eqb_eq in Ec; subst c.
      destruct r; [| discriminate]. exfalso. now apply Hge.
    + unfold value in *. rewrite valueFrom_app, Hv. cbn [valueFrom].
      rewrite D2. pose proof (Z.div_mod u 10). lia.
Qed.

(** [FormatUint] writes a uint64 as its decimal text. *)
Lemma FormatUint_decimal (u : Z) :
  0 <= u < 2 ^ 64 ->
  isUnsignedText (FormatUint u) = true /\ value (FormatUint u) = u.
Proof.
  intros H.
  destruct (formatBits_digits 20 u "") as (ds & Heq & Hd & Hz & Hv);
    [lia | split; [lia |]; eapply Z.lt_trans; [apply H | reflexivity] |].
  unfold FormatUint, isUnsignedText.
  rewrite Heq, append_empty_r, Hd, Hz, Hv. now split.
Qed.

End StrconvFacts.

(** *** uint64(f) *)

Module ConversionFacts.
Import Go Float64.

Lemma uint64_range (unrepresentable : float -> Z) (f : float) :
  0 <= uint64_of_float64 unrepresentable f < 2 ^ 64.
Proof.
  unfold uint64_of_float64.
  destruct (truncate f) as [t|]; [| apply Z.mod_pos_bound; reflexivity].
  destruct ((0 <=? t) && (t <? 2 ^ 64)) eqn:E;
    [| apply Z.mod_pos_bound; reflexivity].
  apply andb_true_iff in E as [E1%Z.leb_le E2%Z.ltb_lt]. lia.
Qed.

Lemma truncate_integerPart (f : float) (n : Z) :
  integerPart f n -> truncate f = Some n.
Proof.
  unfold integerPart, truncate.
  destruct (Prim2SF f) as [s | s | | s m e]; try contradiction.
  - now intros ->.
  - destruct s; [contradiction |].
    destruct (0 <=? e) eqn:E.
    + apply Z.leb_le in E. intros ->. now rewrite Z.shiftl_mul_pow2.
    + apply Z.leb_gt in E. intros H.
      rewrite Z.shiftl_div_pow2 by lia. f_equal.
      assert (0 < 2 ^ (- e)) by (apply Z.pow_pos_nonneg; lia).
      symmetry. apply Z.div_unique with (r := Z.pos m - n * 2 ^ (- e)); lia.
Qed.

Lemma integerPart_nonneg (f : float) (n : Z) : integerPart f n -> 0 <= n.
Proof.
  unfold integerPart.
  destruct (Prim2SF f) as [s | s | | s m e]; try contradiction; [lia |].
  destruct s; [contradiction |].
  destruct (0 <=? e) eqn:E.
  - apply Z.leb_le in E. intros ->.
    assert (0 < 2 ^ e) by (apply Z.pow_pos_nonneg; lia). lia.
  - apply Z.leb_gt in E. intros H.
    assert (0 < 2 ^ (- e)) by (apply Z.pow_pos_nonneg; lia). nia.
Qed.

Lemma integerPart_exists (f : float) :
  nonNegative f = true -> finite f = true ->
  exists n, 0 <= n /\ integerPart f n.
Proof.
  unfold nonNegative, finite, integerPart.
  destruct (Prim2SF f) as [s | s | | s m e]; try discriminate.
  - intros _ _. exists 0. now split.
  - destruct s; [discriminate |]. intros _ _.
    destruct (0 <=? e) eqn:E.
    + apply Z.leb_le in E. exists (Z.pos m * 2 ^ e). split; [| reflexivity].
      assert (0 < 2 ^ e) by (apply Z.pow_pos_nonneg; lia). lia.
    + apply Z.leb_gt in E.
      assert (0 < 2 ^ (- e)) as Hp by (apply Z.pow_pos_nonneg; lia).
      exists (Z.pos m / 2 ^ (- e)). split; [apply Z.div_pos; lia |].
      pose proof (Z.mul_div_le (Z.pos m) _ Hp).
      pose proof (Z.mul_succ_div_gt (Z.pos m) _ Hp). lia.
Qed.

Lemma uint64_integerPart (unrepresentable : float -> Z) (f : float) (n : Z) :
  integerPart f n -> n < 2 ^ 64 -> uint64_of_float64 unrepresentable f = n.
Proof.
  intros H Hn. pose proof (integerPart_nonneg _ _ H) as H0.
  unfold uint64_of_float64. rewrite (truncate_integerPart _ _ H).
  destruct (0 <=? n) eqn:E1; [| apply Z.leb_gt in E1; lia].
  destruct (n <? 2 ^ 64) eqn:E2; [reflexivity | apply Z.ltb_ge in E2; lia].
Qed.

End ConversionFacts.

(** ** GinProcessCollector *)

Module GinProcessFacts.
Import prometheus GinProcessCommon Cycle.

Lemma elem_of_Collect (v : GaugeVec) (m : Metric) :
  m ∈ prometheus.Collect v <->
  exists L x, gvMetrics v !! L = Some x /\
              m = MustNewConstMetric (gvDesc v) GaugeValue x L.
Proof.
  unfold prometheus.Collect. rewrite list_elem_of_fmap. split.
  - intros ([L x] & -> & Hin). apply elem_of_map_to_list in Hin.
    now exists L, x.
  - intros (L & x & Hl & ->). exists (L, x). split; [reflexivity |].
    now apply elem_of_map_to_list.
Qed.

Lemma Collect_Reset (v : GaugeVec) : prometheus.Collect (Reset v) = [].
Proof. unfold prometheus.Collect, Reset; simpl. now rewrite map_to_list_empty. Qed.

Section Generic.
Variable labelsOf : process.Process -> list string.

Local Abbreviation visit := (visit labelsOf).
Local Abbreviation collect := (collect labelsOf).

Lemma visit_cpu (c : GinProcessCollector) (p : process.Process) :
  cpuMap (visit c p) =
    if errIsNil (process.CPUPercent p)
    then <[labelsOf p := (process.CPUPercent p).1]> (cpuMap c)
    else cpuMap c.
Proof.
  unfold visit, cpuMap.
  destruct (errIsNil (process.CPUPercent p)), (errIsNil (process.MemoryInfo p));
    reflexivity.
Qed.

Lemma visit_mem (c : GinProcessCollector) (p : process.Process) :
  memMap (visit c p) =
    if errIsNil (process.MemoryInfo p)
    then <[labelsOf p := rssMB (process.MemoryInfo p).1]> (memMap c)
    else memMap c.
Proof.
  unfold visit, memMap.
  destruct (errIsNil (process.CPUPercent p)), (errIsNil (process.MemoryInfo p));
    reflexivity.
Qed.

Lemma visit_desc (c : GinProcessCollector) (p : process.Process) :
  gvDesc (cpuPercent (visit c p)) = gvDesc (cpuPercent c) /\
  gvDesc (memoryMB (visit c p)) = gvDesc (memoryMB c).
Proof.
  unfold visit.
  destruct (errIsNil (process.CPUPercent p)), (errIsNil (process.MemoryInfo p));
    split; reflexivity.
Qed.

Lemma loop_desc (procs : list process.Process) :
  forall c,
    gvDesc (cpuPercent (foldl visit c procs)) = gvDesc (cpuPercent c) /\
    gvDesc (memoryMB (foldl visit c procs)) = gvDesc (memoryMB c).
Proof.
  induction procs as [|p procs IH]; intros c; [now split |].
  cbn [foldl]. destruct (IH (visit c p)) as [-> ->]. apply visit_desc.
Qed.

(** The loop seen from one vector: a fold of conditional inserts.  [ok]
    and [val] are the error test and the value of the read. *)
Section OneVector.
Variable ok : process.Process -> bool.
Variable val : process.Process -> float.
Variable proj : GinProcessCollector -> gmap (list string) float.
Hypothesis proj_visit : forall c p,
  proj (visit c p) = if ok p then <[labelsOf p := val p]> (proj c) else proj c.

(** A tuple is in the vector after the loop only if it was there
    before or a process set it. *)
Lemma loop_lookup_inv (procs : list process.Process) :
  forall c L x,
    proj (foldl visit c procs) !! L = Some x ->
    proj c !! L = Some x \/
    exists p, p ∈ procs /\ labelsOf p = L /\ ok p = true /\ val p = x.
Proof.
  induction procs as [|p procs IH]; intros c L x H; [now left |].
  cbn [foldl] in H. apply IH in H as [H | (q & Hq & HL & Hok & Hv)].
  - rewrite proj_visit in H. destruct (ok p) eqn:E; [| now left].
    destruct (decide (labelsOf p = L)) as [Heq | Hne].
    + rewrite Heq, lookup_insert_eq in H. injection H as <-.
      right. exists p. split; [apply list_elem_of_here | easy].
    + rewrite lookup_insert_ne in H by assumption. now left.
  - right. exists q. split; [now apply list_elem_of_further | easy].
Qed.

(** A process whose read worked leaves its tuple in the vector. *)
Lemma loop_lookup_set (procs : list process.Process) :
  forall c p,
    p ∈ procs -> ok p = true ->
    is_Some (proj (foldl visit c procs) !! labelsOf p).
Proof.
  assert (forall procs c L, is_Some (proj c !! L) ->
            is_Some (proj (foldl visit c procs) !! L)) as Keep.
  { clear procs. induction procs as [|q procs IH]; intros c L H; [exact H |].
    cbn [foldl]. apply IH. rewrite proj_visit.
    destruct (ok q); [| exact H].
    destruct (decide (labelsOf q = L)) as [<- | Hne].
    - rewrite lookup_insert_eq. eauto.
    - now rewrite lookup_insert_ne. }
  induction procs as [|q procs IH]; intros c p Hin Hok.
  - now apply not_elem_of_nil in Hin.
  - cbn [foldl]. apply elem_of_cons in Hin as [<- | Hin].
    + apply Keep. rewrite proj_visit, Hok, lookup_insert_eq. eauto.
    + now apply IH.
Qed.

(** With no other record under the same labels, the value in the
    vector is the one read from the process. *)
Lemma loop_lookup_value (procs : list process.Process) (c : GinProcessCollector)
  (p : process.Process) :
  proj c !! labelsOf p = None ->
  p ∈ procs -> identifies labelsOf procs p -> ok p = true ->
  proj (foldl visit c procs) !! labelsOf p = Some (val p).
Proof.
  intros Hc Hin Hid Hok.
  destruct (loop_lookup_set procs c p Hin Hok) as [x Hx].
  rewrite Hx. apply loop_lookup_inv in Hx as [Hx | (q & Hq & HL & _ & <-)].
  - congruence.
  - now rewrite (Hid q Hq HL).
Qed.

Lemma loop_lookup_unset (procs : list process.Process) (c : GinProcessCollector)
  (L : list string) :
  proj c !! L = None ->
  (forall p, p ∈ procs -> labelsOf p = L -> ok p = false) ->
  proj (foldl visit c procs) !! L = None.
Proof.
  intros Hc Hno.
  destruct (proj (foldl visit c procs) !! L) as [x|] eqn:E; [| reflexivity].
  apply loop_lookup_inv in E as [E | (q & Hq & HL & Hok & _)].
  - congruence.
  - rewrite (Hno q Hq HL) in Hok. discriminate.
Qed.
End OneVector.

(** [collect] sends what its two vectors hold when it returns. *)
Lemma collect_output (c : GinProcessCollector) (snap : result (list process.Process)) :
  (collect c snap).1.2 =
    prometheus.Collect (cpuPercent (collect c snap).1.1) ++
    prometheus.Collect (memoryMB (collect c snap).1.1).
Proof.
  unfold collect. destruct snap.2; simpl; [| reflexivity].
  now rewrite !Collect_Reset.
Qed.

Lemma collect_error (c : GinProcessCollector) (snap : result (list process.Process)) :
  (collect c snap).2 = snap.2.
Proof. unfold collect. destruct snap.2; reflexivity. Qed.

Lemma collect_desc (c : GinProcessCollector) (snap : result (list process.Process)) :
  gvDesc (cpuPercent (collect c snap).1.1) = gvDesc (cpuPercent c) /\
  gvDesc (memoryMB (collect c snap).1.1) = gvDesc (memoryMB c).
Proof.
  unfold collect. destruct snap.2; simpl; [now split |].
  apply (loop_desc snap.1
           {| cpuPercent := Reset (cpuPercent c); memoryMB := Reset (memoryMB c) |}).
Qed.

(** Whatever the collector held before, after [collect] the CPU vector
    holds exactly the tuples set during this call. *)
Lemma collect_cpu_inv (c : GinProcessCollector) (snap : result (list process.Process))
  (L : list string) (x : float) :
  cpuMap (collect c snap).1.1 !! L = Some x -> setsCpu labelsOf snap L.
Proof.
  unfold collect, setsCpu. destruct snap.2; simpl.
  - unfold cpuMap; simpl. now rewrite lookup_empty.
  - intros H. split; [reflexivity |].
    apply (loop_lookup_inv _ (fun p => (process.CPUPercent p).1) cpuMap visit_cpu)
      in H as [H | (p & ? & ? & ? & _)].
    + unfold cpuMap in H; simpl in H. now rewrite lookup_empty in H.
    + now exists p.
Qed.

Lemma collect_mem_inv (c : GinProcessCollector) (snap : result (list process.Process))
  (L : list string) (x : float) :
  memMap (collect c snap).1.1 !! L = Some x -> setsMemory labelsOf snap L.
Proof.
  unfold collect, setsMemory. destruct snap.2; simpl.
  - unfold memMap; simpl. now rewrite lookup_empty.
  - intros H. split; [reflexivity |].
    apply (loop_lookup_inv _ (fun p => rssMB (process.MemoryInfo p).1) memMap visit_mem)
      in H as [H | (p & ? & ? & ? & _)].
    + unfold memMap in H; simpl in H. now rewrite lookup_empty in H.
    + now exists p.
Qed.
End Generic.

End GinProcessFacts.

(** ** GinWebAppCollector *)

Module GinWebAppFacts.
Import prometheus GinWebApp Run.
Local Open Scope go_scope.

Lemma Effects_eta (e : Effects) :
  {| ch := ch e; logged := logged e; opened := opened e; sampled := sampled e |} = e.
Proof. now destruct e. Qed.

Lemma onlySends_ret : onlySends (ret tt).
Proof. intros e. unfold ret; simpl. now rewrite app_nil_r, Effects_eta. Qed.

Lemma onlySends_send (m : Metric) : onlySends (send m).
Proof. intros e. reflexivity. Qed.

Lemma sent_seq (a b : M unit) :
  onlySends a -> onlySends b ->
  onlySends (a ;; b) /\
  ch ((a ;; b) noEffects).2 = ch (a noEffects).2 ++ ch (b noEffects).2.
Proof.
  intros Ha Hb.
  assert (forall e, (a ;; b) e =
            (tt, {| ch := ch e ++ ch (a noEffects).2 ++ ch (b noEffects).2;
                    logged := logged e; opened := opened e;
                    sampled := sampled e |})) as Hrun.
  { intros e. unfold bind. rewrite (Ha e); simpl. rewrite Hb; simpl.
    now rewrite app_assoc. }
  assert (ch ((a ;; b) noEffects).2 = ch (a noEffects).2 ++ ch (b noEffects).2) as Hch.
  { now rewrite Hrun. }
  split; [| exact Hch]. intros e. now rewrite Hch, Hrun.
Qed.

Lemma onlySends_seq (a b : M unit) :
  onlySends a -> onlySends b -> onlySends (a ;; b).
Proof. intros Ha Hb. now apply sent_seq. Qed.

Lemma forEach_run {T : Type} (body : T -> M unit) (data : list T) :
  (forall d, onlySends (body d)) ->
  onlySends (forEach data body) /\
  ch (forEach data body noEffects).2 = flat_map (recordMetrics body) data.
Proof.
  intros Hbody. induction data as [|d data [IH1 IH2]].
  - split; [apply onlySends_ret | reflexivity].
  - cbn [forEach flat_map].
    destruct (sent_seq (body d) (forEach data body) (Hbody d) IH1) as [H1 H2].
    split; [exact H1 |]. now rewrite H2, IH2.
Qed.

(** A record for which the body sends nothing can be left out. *)
Lemma sourceMetrics_skip {T : Type} (coll : option pdh.Collector)
  (body : T -> M unit) (before after : list T) (d : T) :
  recordMetrics body d = [] ->
  sourceMetrics coll (fun _ => (before ++ d :: after, None)) body =
  sourceMetrics coll (fun _ => (before ++ after, None)) body.
Proof.
  intros Hd. unfold sourceMetrics. destruct coll; [| reflexivity]. simpl.
  rewrite !flat_map_app. simpl. now rewrite Hd.
Qed.

(** The records of a live source whose sample worked are all sent. *)
Lemma sourceMetrics_record {T : Type} (coll : option pdh.Collector)
  (read : pdh.Collector -> result (list T)) (body : T -> M unit)
  (h : pdh.Collector) (d : T) (m : Metric) :
  coll = Some h -> errIsNil (read h) = true -> d ∈ (read h).1 ->
  m ∈ recordMetrics body d -> m ∈ sourceMetrics coll read body.
Proof.
  intros -> Hok Hd Hm. unfold sourceMetrics. rewrite Hok.
  apply list_elem_of_In, in_flat_map. exists d.
  split; now apply list_elem_of_In.
Qed.

(** A source whose sample failed sends nothing. *)
Lemma sourceMetrics_failed {T : Type} (coll : option pdh.Collector)
  (read : pdh.Collector -> result (list T)) (body : T -> M unit) :
  (forall h, errIsNil (read h) = false) -> sourceMetrics coll read body = [].
Proof.
  intros Hfail. unfold sourceMetrics. destruct coll as [h|]; [| reflexivity].
  now rewrite Hfail.
Qed.

Section Collector.
Variable host : Host.
Variable mapUnicodeToLower : string -> string.
Variable unrepresentable : float -> Z.

Lemma onlySends_emitAspNet (d : aspNetValues.t) :
  onlySends (emitAspNet mapUnicodeToLower d).
Proof.
  unfold emitAspNet.
  destruct (Go.Contains _ _); [apply onlySends_ret |].
  repeat apply onlySends_seq; apply onlySends_send.
Qed.

Lemma onlySends_emitProcess (d : processValues.t) :
  onlySends (emitProcess unrepresentable d).
Proof. unfold emitProcess. repeat apply onlySends_seq; apply onlySends_send. Qed.

Lemma onlySends_emitNetClr (d : netClrValues.t) : onlySends (emitNetClr d).
Proof.
  unfold emitNetClr.
  destruct (Go.Contains _ _); [apply onlySends_ret |].
  repeat apply onlySends_seq; apply onlySends_send.
Qed.

(** One source: it is sampled when it is live, and its records are sent
    when the sample worked. *)
Lemma collectSource_run {T : Type} (coll : option pdh.Collector)
  (read : pdh.Collector -> result (list T)) (body : T -> M unit) (e : Effects) :
  (forall d, onlySends (body d)) ->
  collectSource coll read body e =
    (tt, {| ch := ch e ++ sourceMetrics coll read body;
            logged := logged e; opened := opened e;
            sampled := sampled e ++ sourceSamples coll |}).
Proof.
  intros Hbody. unfold collectSource, sourceMetrics, sourceSamples.
  destruct coll as [h|].
  - unfold bind, pdhCollect; simpl.
    destruct (errIsNil (read h)).
    + destruct (forEach_run body (read h).1 Hbody) as [H1 H2].
      rewrite H1; simpl. now rewrite H2.
    + unfold ret. now rewrite app_nil_r.
  - unfold ret. now rewrite !app_nil_r, Effects_eta.
Qed.

(** The whole cycle: the three sources one after the other, each adding
    what it alone delivers; [nil] is returned. *)
Lemma Collect_run (c : GinWebAppCollector) (e : Effects) :
  Collect host mapUnicodeToLower unrepresentable c e =
    (None,
     {| ch := ch e
              ++ sourceMetrics (aspNetColl c) (collectAspNet host)
                   (emitAspNet mapUnicodeToLower)
              ++ sourceMetrics (processColl c) (collectProcess host)
                   (emitProcess unrepresentable)
              ++ sourceMetrics (netClrColl c) (collectNetClr host) emitNetClr;
        logged := logged e;
        opened := opened e;
        sampled := sampled e ++ sourceSamples (aspNetColl c)
                   ++ sourceSamples (processColl c)
                   ++ sourceSamples (netClrColl c) |}).
Proof.
  unfold Collect, bind.
  rewrite (collectSource_run _ _ _ e onlySends_emitAspNet); simpl.
  rewrite (collectSource_run _ _ _ _ onlySends_emitProcess); simpl.
  rewrite (collectSource_run _ _ _ _ onlySends_emitNetClr); simpl.
  unfold ret. now rewrite <- !app_assoc.
Qed.

End Collector.

End GinWebAppFacts.

(** ** One cycle of GinProcessCollector, for any choice of labels *)

Module GinProcessCycle.
Import prometheus GinProcessCommon Cycle GinProcessFacts.

Section Generic.
Variable labelsOf : process.Process -> list string.

(** A cycle starts from empty vectors: what an earlier cycle left is gone,
    and each vector holds only the tuples set in this cycle. *)
Lemma collect_resets (c : GinProcessCollector)
  (snap : result (list process.Process)) (L : list string) :
  (~ setsCpu labelsOf snap L ->
   forall m, m ∈ prometheus.Collect (cpuPercent (collect labelsOf c snap).1.1) ->
             labelValues m <> L) /\
  (~ setsMemory labelsOf snap L ->
   forall m, m ∈ prometheus.Collect (memoryMB (collect labelsOf c snap).1.1) ->
             labelValues m <> L).
Proof.
  split; intros Hno m Hin;
    apply elem_of_Collect in Hin as (L' & x & Hl & ->); simpl; intros ->;
    apply Hno.
  - eapply collect_cpu_inv. exact Hl.
  - eapply collect_mem_inv. exact Hl.
Qed.

Lemma collect_returns (c : GinProcessCollector)
  (snap : result (list process.Process)) :
  ((collect labelsOf c snap).2 <> None <-> snap.2 <> None) /\
  (snap.2 <> None -> (collect labelsOf c snap).1.2 = []) /\
  (forall procs, (collect labelsOf c (procs, None)).2 = None).
Proof.
  split; [now rewrite collect_error |]. split.
  - intros H. unfold collect. destruct snap.2; [reflexivity | congruence].
  - intros procs. apply collect_error.
Qed.

(** The memory gauge of a record is sent when its memory read worked,
    whatever its CPU read did. *)
Lemma collect_sends_memory (c : GinProcessCollector)
  (procs : list process.Process) (p : process.Process) :
  p ∈ procs -> errIsNil (process.MemoryInfo p) = true ->
  (exists x, MustNewConstMetric (gvDesc (memoryMB c)) GaugeValue x (labelsOf p)
               ∈ (collect labelsOf c (procs, None)).1.2) /\
  (identifies labelsOf procs p ->
   MustNewConstMetric (gvDesc (memoryMB c)) GaugeValue
     (rssMB (process.MemoryInfo p).1) (labelsOf p)
     ∈ (collect labelsOf c (procs, None)).1.2).
Proof.
  intros Hin Hok.
  pose proof (collect_desc labelsOf c (procs, None)) as [_ Hd].
  rewrite collect_output.
  set (c0 := {| cpuPercent := Reset (cpuPercent c); memoryMB := Reset (memoryMB c) |}).
  assert ((collect labelsOf c (procs, None)).1.1 = foldl (visit labelsOf) c0 procs)
    as Hc by reflexivity.
  split.
  - destruct (loop_lookup_set labelsOf _ _ memMap (visit_mem labelsOf) procs c0 p Hin Hok)
      as [x Hx].
    exists x. apply elem_of_app; right. apply elem_of_Collect.
    exists (labelsOf p), x. rewrite Hd, Hc. now split.
  - intros Hid. apply elem_of_app; right. apply elem_of_Collect.
    exists (labelsOf p), (rssMB (process.MemoryInfo p).1). rewrite Hd, Hc.
    split; [| reflexivity].
    now apply (loop_lookup_value labelsOf _ _ memMap (visit_mem labelsOf)).
Qed.

(** The same for the CPU gauge. *)
Lemma collect_sends_cpu (c : GinProcessCollector)
  (procs : list process.Process) (p : process.Process) :
  p ∈ procs -> errIsNil (process.CPUPercent p) = true ->
  (exists x, MustNewConstMetric (gvDesc (cpuPercent c)) GaugeValue x (labelsOf p)
               ∈ (collect labelsOf c (procs, None)).1.2) /\
  (identifies labelsOf procs p ->
   MustNewConstMetric (gvDesc (cpuPercent c)) GaugeValue
     (process.CPUPercent p).1 (labelsOf p)
     ∈ (collect labelsOf c (procs, None)).1.2).
Proof.
  intros Hin Hok.
  pose proof (collect_desc labelsOf c (procs, None)) as [Hd _].
  rewrite collect_output.
  set (c0 := {| cpuPercent := Reset (cpuPercent c); memoryMB := Reset (memoryMB c) |}).
  assert ((collect labelsOf c (procs, None)).1.1 = foldl (visit labelsOf) c0 procs)
    as Hc by reflexivity.
  split.
  - destruct (loop_lookup_set labelsOf _ _ cpuMap (visit_cpu labelsOf) procs c0 p Hin Hok)
      as [x Hx].
    exists x. apply elem_of_app; left. apply elem_of_Collect.
    exists (labelsOf p), x. rewrite Hd, Hc. now split.
  - intros Hid. apply elem_of_app; left. apply elem_of_Collect.
    exists (labelsOf p), (process.CPUPercent p).1. rewrite Hd, Hc.
    split; [| reflexivity].
    now apply (loop_lookup_value labelsOf _ _ cpuMap (visit_cpu labelsOf)).
Qed.

(** A failed read leaves no gauge for the record in that vector. *)
Lemma collect_omits (c : GinProcessCollector)
  (procs : list process.Process) (p : process.Process) :
  identifies labelsOf procs p ->
  (errIsNil (process.CPUPercent p) = false ->
   cpuMap (collect labelsOf c (procs, None)).1.1 !! labelsOf p = None) /\
  (errIsNil (process.MemoryInfo p) = false ->
   memMap (collect labelsOf c (procs, None)).1.1 !! labelsOf p = None).
Proof.
  intros Hid. split; intros Hfail.
  - apply (loop_lookup_unset labelsOf _ _ cpuMap (visit_cpu labelsOf));
      [apply lookup_empty |].
    intros q Hq HL. now rewrite (Hid q Hq HL).
  - apply (loop_lookup_unset labelsOf _ _ memMap (visit_mem labelsOf));
      [apply lookup_empty |].
    intros q Hq HL. now rewrite (Hid q Hq HL).
Qed.

(** A snapshot of one process whose reads all work. *)
Lemma collect_single (c : GinProcessCollector) (p : process.Process) :
  errIsNil (process.CPUPercent p) = true ->
  errIsNil (process.MemoryInfo p) = true ->
  (collect labelsOf c ([p], None)).1.2 =
    [ MustNewConstMetric (gvDesc (cpuPercent c)) GaugeValue
        (process.CPUPercent p).1 (labelsOf p);
      MustNewConstMetric (gvDesc (memoryMB c)) GaugeValue
        (rssMB (process.MemoryInfo p).1) (labelsOf p) ].
Proof.
  intros Hcpu Hmem. unfold collect; simpl. unfold visit. rewrite Hcpu, Hmem; simpl.
  unfold prometheus.Collect; simpl.
  now rewrite !insert_empty, !map_to_list_singleton.
Qed.

End Generic.

End GinProcessCycle.

(** ** Build of GinWebAppCollector *)

Module GinWebAppBuild.
Import prometheus GinWebApp Run GinWebAppFacts.

Section Build.
Variable host : Host.

(** What [Build] asks of pdh, what it logs and what it stores. *)
Lemma Build_run (c : GinWebAppCollector) (lg : slog.Logger) (e : Effects) :
  let primary := NewCollector host "ASP.NET Applications" (InstancesAll host) in
  let fallback := NewCollector host "ASP.NET v4.0.30319" (InstancesAll host) in
  let proc := NewCollector host "Process" ["w3wp"] in
  let clr := NewCollector host ".NET CLR Memory" ["w3wp"] in
  Build host c lg e =
    ({| logger := Some lg;
        aspNetColl := if errIsNil primary then primary.1 else fallback.1;
        processColl := proc.1;
        netClrColl := clr.1 |},
     None,
     {| ch := ch e;
        logged := logged e
          ++ (if errIsNil primary || errIsNil fallback then []
              else [warning "Failed to initialize ASP.NET collector" fallback.2])
          ++ (if errIsNil proc then []
              else [warning "Failed to initialize Process collector" proc.2])
          ++ (if errIsNil clr then []
              else [warning "Failed to initialize .NET CLR collector" clr.2]);
        opened := opened e
          ++ [("ASP.NET Applications", InstancesAll host)]
          ++ (if errIsNil primary then []
              else [("ASP.NET v4.0.30319", InstancesAll host)])
          ++ [("Process", ["w3wp"]); (".NET CLR Memory", ["w3wp"])];
        sampled := sampled e |}).
Proof.
  intros primary fallback proc clr.
  unfold Build, bind, pdhNewCollector, Warn, ret, errIsNil, warning; simpl.
  fold primary fallback proc clr.
  destruct primary.2 as [e1|]; [destruct fallback.2 as [e2|] |];
    destruct proc.2 as [e3|]; destruct clr.2 as [e4|]; simpl;
    now rewrite ?app_nil_r, <- ?app_assoc.
Qed.

End Build.

End GinWebAppBuild.

(** * The claims *)

(** ** GinProcessCollector.Collect *)

(** C3.  Gauge-vector emission is reset each cycle.  Take two consecutive
    [Collect] calls, on the snapshots [snap1] and [snap2], from any state
    of the collector.  What the second call sends is what its two vectors
    hold, and a label tuple [L] that is not set again during the second
    call (whether the first call set it or not) is in neither vector's
    output.  This holds for the collector of ginprocess.go and for the one
    with five labels. *)
Theorem gauge_vectors_are_reset_each_cycle
  (c0 : GinProcessCommon.GinProcessCollector)
  (snap1 snap2 : result (list process.Process)) (L : list string) :
  (let c1 := (GinProcess.Collect c0 snap1).1.1 in
   let r2 := GinProcess.Collect c1 snap2 in
   r2.1.2 = prometheus.Collect (GinProcessCommon.cpuPercent r2.1.1)
            ++ prometheus.Collect (GinProcessCommon.memoryMB r2.1.1) /\
   (~ Cycle.setsCpu GinProcess.labelsOf snap2 L ->
    forall m, m ∈ prometheus.Collect (GinProcessCommon.cpuPercent r2.1.1) ->
              prometheus.labelValues m <> L) /\
   (~ Cycle.setsMemory GinProcess.labelsOf snap2 L ->
    forall m, m ∈ prometheus.Collect (GinProcessCommon.memoryMB r2.1.1) ->
              prometheus.labelValues m <> L)) /\
  (let c1 := (GinProcessLabeled.Collect c0 snap1).1.1 in
   let r2 := GinProcessLabeled.Collect c1 snap2 in
   r2.1.2 = prometheus.Collect (GinProcessCommon.cpuPercent r2.1.1)
            ++ prometheus.Collect (GinProcessCommon.memoryMB r2.1.1) /\
   (~ Cycle.setsCpu GinProcessLabeled.labelsOf snap2 L ->
    forall m, m ∈ prometheus.Collect (GinProcessCommon.cpuPercent r2.1.1) ->
              prometheus.labelValues m <> L) /\
   (~ Cycle.setsMemory GinProcessLabeled.labelsOf snap2 L ->
    forall m, m ∈ prometheus.Collect (GinProcessCommon.memoryMB r2.1.1) ->
              prometheus.labelValues m <> L)).
Proof.
  split; cbv zeta; (split; [apply GinProcessFacts.collect_output |]);
    apply GinProcessCycle.collect_resets.
Qed.

(** The tuple of pid 100 is sent in a first cycle; in a second cycle,
    whose snapshot holds another process only, it is in neither vector. *)
Lemma gauge_vectors_are_reset_each_cycle_witness :
  let L := ["100"; "w3wp"] in
  let c1 := (GinProcess.Collect GinProcess.Build.1 ([Scenario.w3wp0], None)).1.1 in
  let r2 := GinProcess.Collect c1 ([Scenario.noCpu], None) in
  (exists m, m ∈ (GinProcess.Collect GinProcess.Build.1 ([Scenario.w3wp0], None)).1.2 /\
             prometheus.labelValues m = L) /\
  (forall m, m ∈ prometheus.Collect (GinProcessCommon.cpuPercent r2.1.1) ->
             prometheus.labelValues m <> L) /\
  (forall m, m ∈ prometheus.Collect (GinProcessCommon.memoryMB r2.1.1) ->
             prometheus.labelValues m <> L).
Proof.
  cbv zeta. split.
  - eexists. split.
    + unfold GinProcess.Collect.
      rewrite GinProcessCycle.collect_single by reflexivity.
      apply list_elem_of_here.
    + reflexivity.
  - assert (forall p, p ∈ [Scenario.noCpu] ->
              GinProcess.labelsOf p <> ["100"; "w3wp"]) as Hother.
    { intros p Hp. apply list_elem_of_singleton in Hp as ->. discriminate. }
    destruct (gauge_vectors_are_reset_each_cycle GinProcess.Build.1
                ([Scenario.w3wp0], None) ([Scenario.noCpu], None) ["100"; "w3wp"])
      as [(_ & Hcpu & Hmem) _].
    split; [apply Hcpu | apply Hmem];
      intros (_ & p & Hp & HL & _); exact (Hother p Hp HL).
Defined.

(** C4.  [Collect] returns an error exactly when the process enumeration
    fails, and it is the error of the enumeration; nothing is sent then;
    and whatever the reads of the single processes do (name, CPU, memory,
    and the rest), a working enumeration makes [Collect] return [nil].
    For both collectors. *)
Theorem Collect_fails_only_with_the_enumeration
  (c : GinProcessCommon.GinProcessCollector)
  (snap : result (list process.Process)) :
  (((GinProcess.Collect c snap).2 <> None <-> snap.2 <> None) /\
   (GinProcess.Collect c snap).2 = snap.2 /\
   (snap.2 <> None -> (GinProcess.Collect c snap).1.2 = []) /\
   (forall procs, (GinProcess.Collect c (procs, None)).2 = None)) /\
  (((GinProcessLabeled.Collect c snap).2 <> None <-> snap.2 <> None) /\
   (GinProcessLabeled.Collect c snap).2 = snap.2 /\
   (snap.2 <> None -> (GinProcessLabeled.Collect c snap).1.2 = []) /\
   (forall procs, (GinProcessLabeled.Collect c (procs, None)).2 = None)).
Proof.
  split.
  - destruct (GinProcessCycle.collect_returns GinProcess.labelsOf c snap)
      as (H1 & H2 & H3).
    repeat split; try apply H1; try assumption.
    apply GinProcessFacts.collect_error.
  - destruct (GinProcessCycle.collect_returns GinProcessLabeled.labelsOf c snap)
      as (H1 & H2 & H3).
    repeat split; try apply H1; try assumption.
    apply GinProcessFacts.collect_error.
Qed.

(** A failed enumeration: the error comes back and nothing is sent, also
    when the vectors held gauges from the cycle before. *)
Lemma Collect_fails_only_with_the_enumeration_witness :
  let c1 := (GinProcess.Collect GinProcess.Build.1 ([Scenario.w3wp0], None)).1.1 in
  (GinProcess.Collect c1 ([], Some Scenario.readError)).2 = Some Scenario.readError /\
  (GinProcess.Collect c1 ([], Some Scenario.readError)).1.2 = [] /\
  (GinProcess.Collect c1 ([Scenario.noCpu; Scenario.noMemory], None)).2 = None.
Proof.
  cbv zeta.
  pose proof (Collect_fails_only_with_the_enumeration
                (GinProcess.Collect GinProcess.Build.1 ([Scenario.w3wp0], None)).1.1
                ([], Some Scenario.readError)) as [(_ & H2 & H3 & H4) _].
  split; [exact H2 |]. split; [apply H3; discriminate | apply H4].
Defined.

(** C6.  A failed read of one field does not drop the record.  For a
    process [p] of the snapshot: when its memory read works the memory
    gauge of its labels is sent, and when its CPU read works the CPU gauge
    of its labels is sent, each whatever the other read did.  When no
    other record of the snapshot has the labels of [p], the gauge sent
    carries the value read from [p], and the vector of a failed read holds
    no gauge for these labels.  For both collectors. *)
Theorem field_failure_keeps_the_record
  (c : GinProcessCommon.GinProcessCollector)
  (procs : list process.Process) (p : process.Process) :
  p ∈ procs ->
  (let r := GinProcess.Collect c (procs, None) in
   let L := GinProcess.labelsOf p in
   (errIsNil (process.MemoryInfo p) = true ->
    (exists x, prometheus.MustNewConstMetric
                 (prometheus.gvDesc (GinProcessCommon.memoryMB c))
                 prometheus.GaugeValue x L ∈ r.1.2) /\
    (Cycle.identifies GinProcess.labelsOf procs p ->
     prometheus.MustNewConstMetric
       (prometheus.gvDesc (GinProcessCommon.memoryMB c)) prometheus.GaugeValue
       (GinProcessCommon.rssMB (process.MemoryInfo p).1) L ∈ r.1.2)) /\
   (errIsNil (process.CPUPercent p) = true ->
    (exists x, prometheus.MustNewConstMetric
                 (prometheus.gvDesc (GinProcessCommon.cpuPercent c))
                 prometheus.GaugeValue x L ∈ r.1.2) /\
    (Cycle.identifies GinProcess.labelsOf procs p ->
     prometheus.MustNewConstMetric
       (prometheus.gvDesc (GinProcessCommon.cpuPercent c)) prometheus.GaugeValue
       (process.CPUPercent p).1 L ∈ r.1.2)) /\
   (Cycle.identifies GinProcess.labelsOf procs p ->
    (errIsNil (process.CPUPercent p) = false ->
     GinProcessCommon.cpuMap r.1.1 !! L = None) /\
    (errIsNil (process.MemoryInfo p) = false ->
     GinProcessCommon.memMap r.1.1 !! L = None))) /\
  (let r := GinProcessLabeled.Collect c (procs, None) in
   let L := GinProcessLabeled.labelsOf p in
   (errIsNil (process.MemoryInfo p) = true ->
    (exists x, prometheus.MustNewConstMetric
                 (prometheus.gvDesc (GinProcessCommon.memoryMB c))
                 prometheus.GaugeValue x L ∈ r.1.2) /\
    (Cycle.identifies GinProcessLabeled.labelsOf procs p ->
     prometheus.MustNewConstMetric
       (prometheus.gvDesc (GinProcessCommon.memoryMB c)) prometheus.GaugeValue
       (GinProcessCommon.rssMB (process.MemoryInfo p).1) L ∈ r.1.2)) /\
   (errIsNil (process.CPUPercent p) = true ->
    (exists x, prometheus.MustNewConstMetric
                 (prometheus.gvDesc (GinProcessCommon.cpuPercent c))
                 prometheus.GaugeValue x L ∈ r.1.2) /\
    (Cycle.identifies GinProcessLabeled.labelsOf procs p ->
     prometheus.MustNewConstMetric
       (prometheus.gvDesc (GinProcessCommon.cpuPercent c)) prometheus.GaugeValue
       (process.CPUPercent p).1 L ∈ r.1.2)) /\
   (Cycle.identifies GinProcessLabeled.labelsOf procs p ->
    (errIsNil (process.CPUPercent p) = false ->
     GinProcessCommon.cpuMap r.1.1 !! L = None) /\
    (errIsNil (process.MemoryInfo p) = false ->
     GinProcessCommon.memMap r.1.1 !! L = None))).
Proof.
  intros Hin. split; cbv zeta; repeat apply conj.
  - now apply GinProcessCycle.collect_sends_memory.
  - now apply GinProcessCycle.collect_sends_cpu.
  - apply GinProcessCycle.collect_omits.
  - now apply GinProcessCycle.collect_sends_memory.
  - now apply GinProcessCycle.collect_sends_cpu.
  - apply GinProcessCycle.collect_omits.
Qed.

(** Three records, one with a failing CPU read and one with a failing
    memory read: the memory gauge of the first (2 MB) and the CPU gauge of
    the second are sent, the gauges of the failed reads are not there. *)
Lemma field_failure_keeps_the_record_witness :
  let procs := [Scenario.w3wp0; Scenario.noCpu; Scenario.noMemory] in
  let r := GinProcess.Collect GinProcess.Build.1 (procs, None) in
  prometheus.MustNewConstMetric
    (prometheus.gvDesc (GinProcessCommon.memoryMB GinProcess.Build.1))
    prometheus.GaugeValue 2%float ["4"; "System"] ∈ r.1.2 /\
  GinProcessCommon.cpuMap r.1.1 !! ["4"; "System"] = None /\
  prometheus.MustNewConstMetric
    (prometheus.gvDesc (GinProcessCommon.cpuPercent GinProcess.Build.1))
    prometheus.GaugeValue 1.5%float ["8"; "lsass"] ∈ r.1.2 /\
  GinProcessCommon.memMap r.1.1 !! ["8"; "lsass"] = None.
Proof.
  cbv zeta.
  set (procs := [Scenario.w3wp0; Scenario.noCpu; Scenario.noMemory]).
  assert (forall p, p ∈ procs -> Cycle.identifies GinProcess.labelsOf procs p) as Hid.
  { intros p Hp q Hq. unfold procs in Hp, Hq.
    repeat (apply elem_of_cons in Hp as [-> | Hp]);
      try (now apply not_elem_of_nil in Hp);
      repeat (apply elem_of_cons in Hq as [-> | Hq]);
      try (now apply not_elem_of_nil in Hq);
      intros HL; first [reflexivity | discriminate HL]. }
  assert (Scenario.noCpu ∈ procs) as H1
    by (apply list_elem_of_further, list_elem_of_here).
  assert (Scenario.noMemory ∈ procs) as H2
    by (do 2 apply list_elem_of_further; apply list_elem_of_here).
  destruct (field_failure_keeps_the_record GinProcess.Build.1 procs _ H1)
    as [(Hmem1 & _ & Hno1) _].
  destruct (field_failure_keeps_the_record GinProcess.Build.1 procs _ H2)
    as [(_ & Hcpu2 & Hno2) _].
  split; [exact (proj2 (Hmem1 eq_refl) (Hid _ H1)) |].
  split; [exact (proj1 (Hno1 (Hid _ H1)) eq_refl) |].
  split; [exact (proj2 (Hcpu2 eq_refl) (Hid _ H2)) |].
  exact (proj2 (Hno2 (Hid _ H2)) eq_refl).
Defined.

(** C9.  End to end over one process record with pid 100, name "w3wp",
    12.5 % CPU and 104857600 resident bytes (whatever its other
    attributes): the collector of ginprocess.go, freshly built or after
    any earlier cycle [prev], sends exactly two gauges, the CPU percent
    12.5 and the memory 100.0 MB, both labelled pid="100", name="w3wp",
    and returns [nil].  The collector with five labels sends the same two
    gauges, with the user name, command line and status after these two
    labels. *)
Theorem w3wp_snapshot_end_to_end (user cmd : result string)
  (st : result (list string)) (prev : result (list process.Process)) :
  let p := {| process.Pid := 100;
              process.Name := ("w3wp", None);
              process.Username := user;
              process.Cmdline := cmd;
              process.Status := st;
              process.CPUPercent := (12.5%float, None);
              process.MemoryInfo := ({| process.RSS := 104857600 |}, None) |} in
  let cpu := prometheus.MustNewConstMetric
               (prometheus.NewDesc "windows_ginprocess_cpu_percent"
                  "CPU utilization percent per process" ["pid"; "name"])
               prometheus.GaugeValue 12.5%float ["100"; "w3wp"] in
  let mem := prometheus.MustNewConstMetric
               (prometheus.NewDesc "windows_ginprocess_memory_mb"
                  "Memory usage in MB per process" ["pid"; "name"])
               prometheus.GaugeValue 100%float ["100"; "w3wp"] in
  GinProcess.Build.2 = None /\
  (GinProcess.Collect GinProcess.Build.1 ([p], None)).1.2 = [cpu; mem] /\
  (GinProcess.Collect GinProcess.Build.1 ([p], None)).2 = None /\
  (let c1 := (GinProcess.Collect GinProcess.Build.1 prev).1.1 in
   (GinProcess.Collect c1 ([p], None)).1.2 = [cpu; mem] /\
   (GinProcess.Collect c1 ([p], None)).2 = None) /\
  (let more := drop 2 (GinProcessLabeled.labelsOf p) in
   (GinProcessLabeled.Collect GinProcessLabeled.Build.1 ([p], None)).1.2 =
     [ prometheus.MustNewConstMetric
         (prometheus.NewDesc "windows_ginprocess_cpu_percent"
            "CPU utilization percent per process" GinProcessLabeled.labelNames)
         prometheus.GaugeValue 12.5%float ("100" :: "w3wp" :: more);
       prometheus.MustNewConstMetric
         (prometheus.NewDesc "windows_ginprocess_memory_mb"
            "Memory usage in MB per process" GinProcessLabeled.labelNames)
         prometheus.GaugeValue 100%float ("100" :: "w3wp" :: more) ]).
Proof.
  cbv zeta. split; [reflexivity |]. split; [| split; [| split]].
  - unfold GinProcess.Collect.
    now rewrite GinProcessCycle.collect_single.
  - apply GinProcessFacts.collect_error.
  - split; [| apply GinProcessFacts.collect_error].
    unfold GinProcess.Collect.
    rewrite GinProcessCycle.collect_single by reflexivity.
    destruct (GinProcessFacts.collect_desc GinProcess.labelsOf
                GinProcess.Build.1 prev) as [-> ->].
    reflexivity.
  - unfold GinProcessLabeled.Collect.
    now rewrite GinProcessCycle.collect_single.
Qed.

(** ** GinWebAppCollector *)

(** C2 (as the code has it).  [normalizeAspNetInstanceName] is total and
    rewrites every occurrence of the two tokens, not only a prefix.  For a
    remainder [rest] in which the site token "_LM_W3SVC_" does not occur:
    the identity made of the root-site token and [rest] becomes [rest];
    the identity made of the site token and [rest], when the root-site
    token does not occur in it, becomes "site_" followed by [rest]; and
    [rest] itself comes back unchanged. *)
Theorem normalizeAspNetInstanceName_rewrites (rest : string) :
  Go.Contains rest "_LM_W3SVC_" = false ->
  GinWebApp.normalizeAspNetInstanceName ("_LM_W3SVC_1_ROOT_" +:+ rest) = rest /\
  (Go.Contains ("_LM_W3SVC_" +:+ rest) "_LM_W3SVC_1_ROOT_" = false ->
   GinWebApp.normalizeAspNetInstanceName ("_LM_W3SVC_" +:+ rest) = "site_" +:+ rest) /\
  GinWebApp.normalizeAspNetInstanceName rest = rest.
Proof.
  intros Hrest.
  assert (Go.Contains rest "_LM_W3SVC_1_ROOT_" = false) as Hroot.
  { apply (GoFacts.Contains_longer rest "_LM_W3SVC_" "1_ROOT_"), Hrest. }
  unfold GinWebApp.normalizeAspNetInstanceName. repeat split.
  - rewrite GoFacts.ReplaceAll_occurrence by discriminate.
    rewrite (GoFacts.ReplaceAll_absent rest) by exact Hroot.
    rewrite GoFacts.append_nil. now apply GoFacts.ReplaceAll_absent.
  - intros Hnone. rewrite (GoFacts.ReplaceAll_absent _ _ _ Hnone).
    rewrite GoFacts.ReplaceAll_occurrence by discriminate.
    now rewrite (GoFacts.ReplaceAll_absent rest).
  - rewrite (GoFacts.ReplaceAll_absent rest) by exact Hroot.
    now apply GoFacts.ReplaceAll_absent.
Qed.

Lemma normalizeAspNetInstanceName_rewrites_witness :
  GinWebApp.normalizeAspNetInstanceName "_LM_W3SVC_1_ROOT_MyApp" = "MyApp" /\
  GinWebApp.normalizeAspNetInstanceName "_LM_W3SVC_MyApp" = "site_MyApp" /\
  GinWebApp.normalizeAspNetInstanceName "MyApp" = "MyApp".
Proof.
  destruct (normalizeAspNetInstanceName_rewrites "MyApp" eq_refl) as (A & B & C).
  split; [exact A |]. split; [exact (B eq_refl) | exact C].
Defined.

(** C2 as stated fails: an identity with the root-site prefix loses more
    than the prefix when the token occurs again, and an identity with
    neither prefix is rewritten when a token occurs inside it. *)
Lemma normalizeAspNetInstanceName_rewrites_inside :
  Go.HasPrefix "_LM_W3SVC_1_ROOT_a_LM_W3SVC_1_ROOT_b" "_LM_W3SVC_1_ROOT_" = true /\
  GinWebApp.normalizeAspNetInstanceName "_LM_W3SVC_1_ROOT_a_LM_W3SVC_1_ROOT_b" = "ab" /\
  "ab" <> "a_LM_W3SVC_1_ROOT_b" /\
  Go.HasPrefix "x_LM_W3SVC_2" "_LM_W3SVC_1_ROOT_" = false /\
  Go.HasPrefix "x_LM_W3SVC_2" "_LM_W3SVC_" = false /\
  GinWebApp.normalizeAspNetInstanceName "x_LM_W3SVC_2" = "xsite_2" /\
  "xsite_2" <> "x_LM_W3SVC_2".
Proof. repeat split; discriminate. Qed.

(** C5.  For a non-negative float [f], [formatPID] returns the text of an
    unsigned integer below 2^64: decimal digits only (so no sign and no
    fraction), no superfluous leading zero.  A finite [f] has an integer
    part, and when it is below 2^64 the text denotes it: the fraction is
    cut off.  (Beyond 2^64, and for [+Inf], Go leaves the integer to the
    platform; the text is still that of a uint64.) *)
Theorem formatPID_non_negative (unrepresentable : float -> Z) (f : float) :
  Float64.nonNegative f = true ->
  let text := GinWebApp.formatPID unrepresentable f in
  Decimal.isUnsignedText text = true /\
  0 <= Decimal.value text < 2 ^ 64 /\
  (forall n, Float64.integerPart f n -> n < 2 ^ 64 -> Decimal.value text = n) /\
  (Float64.finite f = true -> exists n, 0 <= n /\ Float64.integerPart f n).
Proof.
  intros Hpos text. unfold text, GinWebApp.formatPID.
  pose proof (ConversionFacts.uint64_range unrepresentable f) as Hr.
  destruct (StrconvFacts.FormatUint_decimal _ Hr) as [Ht Hv].
  split; [exact Ht |]. split; [now rewrite Hv |]. split.
  - intros n Hn Hlt. rewrite Hv. now apply ConversionFacts.uint64_integerPart.
  - intros Hfin. now apply ConversionFacts.integerPart_exists.
Qed.

(** 4123.0 gives "4123" and 0.0 gives "0"; 4123.7 gives "4123" as well. *)
Lemma formatPID_non_negative_witness :
  GinWebApp.formatPID Scenario.saturate 4123%float = "4123" /\
  GinWebApp.formatPID Scenario.saturate 0%float = "0" /\
  Decimal.isUnsignedText (GinWebApp.formatPID Scenario.saturate 4123.5%float) = true /\
  Decimal.value (GinWebApp.formatPID Scenario.saturate 4123.5%float) = 4123.
Proof.
  split; [reflexivity |]. split; [reflexivity |].
  destruct (formatPID_non_negative Scenario.saturate 4123.5%float eq_refl)
    as (H1 & _ & H3 & _).
  split; [exact H1 |]. apply H3; [| reflexivity].
  vm_compute. split; [discriminate | reflexivity].
Defined.

(** C1 (as the code has it).  Each filter belongs to one source.  An
    ASP.NET record whose name, lower-cased, contains "__total__" and a
    .NET CLR record whose name contains "_Global_" (in this spelling) are
    skipped: a cycle in which the source delivers such a record among
    others runs exactly as the cycle in which it delivers the others
    only. *)
Theorem aggregate_instances_are_skipped (host : GinWebApp.Host)
  (mapUnicodeToLower : string -> string) (unrepresentable : float -> Z)
  (c : GinWebApp.GinWebAppCollector) (e : GinWebApp.Effects) :
  (forall (before after : list GinWebApp.aspNetValues.t) d,
     Go.Contains (Go.ToLower mapUnicodeToLower (GinWebApp.aspNetValues.Name d))
       "__total__" = true ->
     GinWebApp.Collect (Run.withAspNetData host (before ++ d :: after))
       mapUnicodeToLower unrepresentable c e =
     GinWebApp.Collect (Run.withAspNetData host (before ++ after))
       mapUnicodeToLower unrepresentable c e) /\
  (forall (before after : list GinWebApp.netClrValues.t) d,
     Go.Contains (GinWebApp.netClrValues.Name d) "_Global_" = true ->
     GinWebApp.Collect (Run.withNetClrData host (before ++ d :: after))
       mapUnicodeToLower unrepresentable c e =
     GinWebApp.Collect (Run.withNetClrData host (before ++ after))
       mapUnicodeToLower unrepresentable c e).
Proof.
  split; intros before after d Hd; rewrite !GinWebAppFacts.Collect_run;
    cbn [Run.withAspNetData Run.withNetClrData GinWebApp.collectAspNet
         GinWebApp.collectProcess GinWebApp.collectNetClr].
  - rewrite (GinWebAppFacts.sourceMetrics_skip _ _ before after d); [reflexivity |].
    unfold Run.recordMetrics, GinWebApp.emitAspNet. now rewrite Hd.
  - rewrite (GinWebAppFacts.sourceMetrics_skip _ _ before after d); [reflexivity |].
    unfold Run.recordMetrics, GinWebApp.emitNetClr. now rewrite Hd.
Qed.

(** The totals instance, in any spelling, beside an application; the
    global instance beside a worker. *)
Lemma aggregate_instances_are_skipped_witness :
  let app := Scenario.aspRecord "_LM_W3SVC_1_ROOT_MyApp" 42 1 900 in
  let total := Scenario.aspRecord "__Total__" 50 2 1000 in
  let host := Scenario.hostWith [] ([], None) ([], None) ([], None) in
  GinWebApp.Collect (Run.withAspNetData host [total; app])
    Scenario.asIs Scenario.saturate Scenario.allLive GinWebApp.noEffects =
  GinWebApp.Collect (Run.withAspNetData host [app])
    Scenario.asIs Scenario.saturate Scenario.allLive GinWebApp.noEffects /\
  GinWebApp.Collect
    (Run.withNetClrData host [Scenario.clrRecord "w3wp"; Scenario.clrRecord "_Global_"])
    Scenario.asIs Scenario.saturate Scenario.allLive GinWebApp.noEffects =
  GinWebApp.Collect (Run.withNetClrData host [Scenario.clrRecord "w3wp"])
    Scenario.asIs Scenario.saturate Scenario.allLive GinWebApp.noEffects.
Proof.
  cbv zeta.
  pose proof (aggregate_instances_are_skipped
                (Scenario.hostWith [] ([], None) ([], None) ([], None))
                Scenario.asIs Scenario.saturate Scenario.allLive
                GinWebApp.noEffects) as [Hasp Hclr].
  split.
  - exact (Hasp [] [Scenario.aspRecord "_LM_W3SVC_1_ROOT_MyApp" 42 1 900]
             (Scenario.aspRecord "__Total__" 50 2 1000) eq_refl).
  - exact (Hclr [Scenario.clrRecord "w3wp"] [] (Scenario.clrRecord "_Global_") eq_refl).
Defined.

(** C1 as stated fails.  The ASP.NET source does not look for the global
    marker: its record named "_Global_" is sent, three measurements.  The
    .NET CLR source does not look for the totals marker, and compares the
    global marker as it is spelled: its records named "__total__" and
    "_global_" are sent, two measurements each.  The Process source has no
    filter. *)
Lemma aggregate_marker_of_another_source_is_sent :
  let run asp proc clr :=
    GinWebApp.ch
      (GinWebApp.Collect (Scenario.hostWith [] (asp, None) (proc, None) (clr, None))
         Scenario.asIs Scenario.saturate Scenario.allLive GinWebApp.noEffects).2 in
  Go.Contains "_Global_" "_Global_" = true /\
  prometheus.labelValues <$> run [Scenario.aspRecord "_Global_" 1 2 3] [] []
    = [["_Global_"]; ["_Global_"]; ["_Global_"]] /\
  Go.Contains (Go.ToLower Scenario.asIs "__total__") "__total__" = true /\
  Go.Contains (Go.ToLower Scenario.asIs "_global_")
    (Go.ToLower Scenario.asIs "_Global_") = true /\
  prometheus.labelValues <$>
    run [] [] [Scenario.clrRecord "__total__"; Scenario.clrRecord "_global_"]
    = [["__total__"]; ["__total__"]; ["_global_"]; ["_global_"]] /\
  prometheus.labelValues <$> run [] [Scenario.workerRecord "__total__" 0] []
    = [["__total__"; "0"]; ["__total__"; "0"]; ["__total__"; "0"]].
Proof. cbv zeta. repeat split. Qed.




(** C8.  A failed sample stays in its source.  In one [Collect] cycle
    every live source is sampled, and the records of a source whose sample
    worked are sent, whatever the other two sources did, a failed sample
    included: three gauges for each worker process, two for each .NET CLR
    instance that is not the global one, two gauges and a counter for each
    ASP.NET application that is not the total. *)
Theorem sample_failure_stays_in_its_source (host : GinWebApp.Host)
  (mapUnicodeToLower : string -> string) (unrepresentable : float -> Z)
  (c : GinWebApp.GinWebAppCollector) (e : GinWebApp.Effects) :
  let r := GinWebApp.Collect host mapUnicodeToLower unrepresentable c e in
  (forall h, GinWebApp.aspNetColl c = Some h \/ GinWebApp.processColl c = Some h \/
             GinWebApp.netClrColl c = Some h ->
             h ∈ GinWebApp.sampled r.2) /\
  (forall h d,
     GinWebApp.processColl c = Some h ->
     errIsNil (GinWebApp.collectProcess host h) = true ->
     d ∈ (GinWebApp.collectProcess host h).1 ->
     let pid := GinWebApp.formatPID unrepresentable (GinWebApp.processValues.IDProcess d) in
     let name := GinWebApp.processValues.Name d in
     GinWebApp.gauge "process_cpu_percent" "Processor time percentage"
       ["process"; "pid"] (GinWebApp.processValues.PercentProcessorTime d) [name; pid]
       ∈ GinWebApp.ch r.2 /\
     GinWebApp.gauge "process_memory_bytes" "Working Set Private bytes"
       ["process"; "pid"] (GinWebApp.processValues.WorkingSetPrivate d) [name; pid]
       ∈ GinWebApp.ch r.2 /\
     GinWebApp.gauge "process_io_bytes_sec" "Total IO bytes per second"
       ["process"; "pid"]
       (GinWebApp.processValues.IOReadBytesSec d
        + GinWebApp.processValues.IOWriteBytesSec d)%float [name; pid]
       ∈ GinWebApp.ch r.2) /\
  (forall h d,
     GinWebApp.netClrColl c = Some h ->
     errIsNil (GinWebApp.collectNetClr host h) = true ->
     d ∈ (GinWebApp.collectNetClr host h).1 ->
     Go.Contains (GinWebApp.netClrValues.Name d) "_Global_" = false ->
     GinWebApp.gauge "dotnet_gc_time_percent" "Percentage of time in GC"
       ["process"] (GinWebApp.netClrValues.PercentTimeInGC d)
       [GinWebApp.netClrValues.Name d] ∈ GinWebApp.ch r.2 /\
     GinWebApp.gauge "dotnet_heap_bytes" "Bytes in all heaps"
       ["process"] (GinWebApp.netClrValues.BytesInAllHeaps d)
       [GinWebApp.netClrValues.Name d] ∈ GinWebApp.ch r.2) /\
  (forall h d,
     GinWebApp.aspNetColl c = Some h ->
     errIsNil (GinWebApp.collectAspNet host h) = true ->
     d ∈ (GinWebApp.collectAspNet host h).1 ->
     Go.Contains (Go.ToLower mapUnicodeToLower (GinWebApp.aspNetValues.Name d))
       "__total__" = false ->
     let app := GinWebApp.normalizeAspNetInstanceName (GinWebApp.aspNetValues.Name d) in
     GinWebApp.gauge "requests_sec" "Requests per second" ["app_path"]
       (GinWebApp.aspNetValues.RequestsSec d) [app] ∈ GinWebApp.ch r.2 /\
     GinWebApp.gauge "requests_executing" "Current executing requests" ["app_path"]
       (GinWebApp.aspNetValues.RequestsExecuting d) [app] ∈ GinWebApp.ch r.2 /\
     GinWebApp.counter "requests_total" "Total requests processed" ["app_path"]
       (GinWebApp.aspNetValues.RequestsTotal d) [app] ∈ GinWebApp.ch r.2).
Proof.
  intros r. unfold r. rewrite GinWebAppFacts.Collect_run. cbn [snd GinWebApp.ch GinWebApp.sampled].
  split; [| split; [| split]].
  - intros h [H | [H | H]]; rewrite H; rewrite !elem_of_app; simpl;
      rewrite list_elem_of_singleton; tauto.
  - intros h d Hc Hok Hd. cbv zeta.
    assert (forall m, m ∈ Run.recordMetrics (GinWebApp.emitProcess unrepresentable) d ->
              m ∈ GinWebApp.ch e
                  ++ Run.sourceMetrics (GinWebApp.aspNetColl c)
                       (GinWebApp.collectAspNet host)
                       (GinWebApp.emitAspNet mapUnicodeToLower)
                  ++ Run.sourceMetrics (GinWebApp.processColl c)
                       (GinWebApp.collectProcess host)
                       (GinWebApp.emitProcess unrepresentable)
                  ++ Run.sourceMetrics (GinWebApp.netClrColl c)
                       (GinWebApp.collectNetClr host) GinWebApp.emitNetClr) as Hsent.
    { intros m Hm. rewrite !elem_of_app. right; right; left.
      now apply (GinWebAppFacts.sourceMetrics_record _ _ _ h d). }
    repeat split; apply Hsent; unfold Run.recordMetrics; simpl;
      rewrite !elem_of_cons; tauto.
  - intros h d Hc Hok Hd Hname.
    assert (forall m, m ∈ Run.recordMetrics GinWebApp.emitNetClr d ->
              m ∈ GinWebApp.ch e
                  ++ Run.sourceMetrics (GinWebApp.aspNetColl c)
                       (GinWebApp.collectAspNet host)
                       (GinWebApp.emitAspNet mapUnicodeToLower)
                  ++ Run.sourceMetrics (GinWebApp.processColl c)
                       (GinWebApp.collectProcess host)
                       (GinWebApp.emitProcess unrepresentable)
                  ++ Run.sourceMetrics (GinWebApp.netClrColl c)
                       (GinWebApp.collectNetClr host) GinWebApp.emitNetClr) as Hsent.
    { intros m Hm. rewrite !elem_of_app. right; right; right.
      now apply (GinWebAppFacts.sourceMetrics_record _ _ _ h d). }
    repeat split; apply Hsent; unfold Run.recordMetrics, GinWebApp.emitNetClr;
      rewrite Hname; simpl; rewrite !elem_of_cons; tauto.
  - intros h d Hc Hok Hd Hname. cbv zeta.
    assert (forall m, m ∈ Run.recordMetrics (GinWebApp.emitAspNet mapUnicodeToLower) d ->
              m ∈ GinWebApp.ch e
                  ++ Run.sourceMetrics (GinWebApp.aspNetColl c)
                       (GinWebApp.collectAspNet host)
                       (GinWebApp.emitAspNet mapUnicodeToLower)
                  ++ Run.sourceMetrics (GinWebApp.processColl c)
                       (GinWebApp.collectProcess host)
                       (GinWebApp.emitProcess unrepresentable)
                  ++ Run.sourceMetrics (GinWebApp.netClrColl c)
                       (GinWebApp.collectNetClr host) GinWebApp.emitNetClr) as Hsent.
    { intros m Hm. rewrite !elem_of_app. right; left.
      now apply (GinWebAppFacts.sourceMetrics_record _ _ _ h d). }
    repeat split; apply Hsent; unfold Run.recordMetrics, GinWebApp.emitAspNet;
      rewrite Hname; simpl; rewrite !elem_of_cons; tauto.
Qed.

(** The ASP.NET sample fails; the worker process and the .NET CLR
    instance of the same cycle are sampled and sent. *)
Lemma sample_failure_stays_in_its_source_witness :
  let host := Scenario.hostWith []
                ([], Some Scenario.readError)
                ([Scenario.workerRecord "w3wp" 4123], None)
                ([Scenario.clrRecord "w3wp"], None) in
  let r := GinWebApp.Collect host Scenario.asIs Scenario.saturate
             Scenario.allLive GinWebApp.noEffects in
  r.1 = None /\
  GinWebApp.gauge "process_cpu_percent" "Processor time percentage"
    ["process"; "pid"] 3%float ["w3wp"; "4123"] ∈ GinWebApp.ch r.2 /\
  GinWebApp.gauge "dotnet_heap_bytes" "Bytes in all heaps"
    ["process"] 1024%float ["w3wp"] ∈ GinWebApp.ch r.2 /\
  length (GinWebApp.ch r.2) = 5%nat.
Proof.
  cbv zeta.
  destruct (sample_failure_stays_in_its_source
              (Scenario.hostWith [] ([], Some Scenario.readError)
                 ([Scenario.workerRecord "w3wp" 4123], None)
                 ([Scenario.clrRecord "w3wp"], None))
              Scenario.asIs Scenario.saturate Scenario.allLive GinWebApp.noEffects)
    as (_ & Hproc & Hclr & _).
  split; [reflexivity |]. split; [| split; [| reflexivity]].
  - refine (proj1 (Hproc _ (Scenario.workerRecord "w3wp" 4123) eq_refl eq_refl _)).
    apply list_elem_of_here.
  - refine (proj2 (Hclr _ (Scenario.clrRecord "w3wp") eq_refl eq_refl _ eq_refl)).
    apply list_elem_of_here.
Defined.

(** C10.  [GinWebAppCollector.Collect] returns [nil] on every input: the
    error of a failed sample, of one source or of all three, is dropped.
    The call logs nothing and opens nothing, and when every sample fails
    it sends nothing. *)
Theorem webapp_Collect_returns_nil (host : GinWebApp.Host)
  (mapUnicodeToLower : string -> string) (unrepresentable : float -> Z)
  (c : GinWebApp.GinWebAppCollector) (e : GinWebApp.Effects) :
  let r := GinWebApp.Collect host mapUnicodeToLower unrepresentable c e in
  r.1 = None /\
  GinWebApp.logged r.2 = GinWebApp.logged e /\
  GinWebApp.opened r.2 = GinWebApp.opened e /\
  ((forall h, errIsNil (GinWebApp.collectAspNet host h) = false) ->
   (forall h, errIsNil (GinWebApp.collectProcess host h) = false) ->
   (forall h, errIsNil (GinWebApp.collectNetClr host h) = false) ->
   GinWebApp.ch r.2 = GinWebApp.ch e).
Proof.
  intros r. unfold r. rewrite GinWebAppFacts.Collect_run. cbn [fst snd].
  repeat split. intros Ha Hp Hc. cbn [GinWebApp.ch].
  rewrite !GinWebAppFacts.sourceMetrics_failed by assumption.
  now rewrite !app_nil_r.
Qed.

(** Every sample fails: [nil] all the same, nothing logged, nothing sent. *)
Lemma webapp_Collect_returns_nil_witness :
  GinWebApp.Collect
    (Scenario.hostWith [] ([], Some Scenario.readError)
       ([], Some Scenario.readError) ([], Some Scenario.readError))
    Scenario.asIs Scenario.saturate Scenario.allLive GinWebApp.noEffects
  = (None,
     {| GinWebApp.ch := []; GinWebApp.logged := []; GinWebApp.opened := [];
        GinWebApp.sampled :=
          [ {| pdh.object := "ASP.NET Applications"; pdh.instances := ["*"] |};
            {| pdh.object := "Process"; pdh.instances := ["w3wp"] |};
            {| pdh.object := ".NET CLR Memory"; pdh.instances := ["w3wp"] |} ] |}).
Proof.
  pose proof (webapp_Collect_returns_nil
                (Scenario.hostWith [] ([], Some Scenario.readError)
                   ([], Some Scenario.readError) ([], Some Scenario.readError))
                Scenario.asIs Scenario.saturate Scenario.allLive
                GinWebApp.noEffects) as (H1 & _).
  rewrite (surjective_pairing (GinWebApp.Collect _ _ _ _ _)), H1.
  reflexivity.
Defined.

(** * Further properties *)

(** ** The pid label *)

Module ItoaFacts.
Import Go Decimal StrconvFacts.

Lemma FormatUint_inj (u v : Z) :
  0 <= u < 2 ^ 64 -> 0 <= v < 2 ^ 64 -> FormatUint u = FormatUint v -> u = v.
Proof.
  intros Hu Hv Heq.
  destruct (FormatUint_decimal u Hu) as [_ <-].
  destruct (FormatUint_decimal v Hv) as [_ <-].
  now rewrite Heq.
Qed.

Lemma FormatUint_no_sign (u : Z) (s : string) :
  0 <= u < 2 ^ 64 -> FormatUint u <> String "-"%char s.
Proof.
  intros Hu Heq. destruct (FormatUint_decimal u Hu) as [Ht _].
  rewrite Heq in Ht. discriminate Ht.
Qed.

Lemma Itoa_inj (i j : Z) :
  - 2 ^ 63 <= i < 2 ^ 63 -> - 2 ^ 63 <= j < 2 ^ 63 -> Itoa i = Itoa j -> i = j.
Proof.
  intros Hi Hj. unfold Itoa.
  destruct (i <? 0) eqn:Ei, (j <? 0) eqn:Ej;
    try apply Z.ltb_lt in Ei; try apply Z.ltb_ge in Ei;
    try apply Z.ltb_lt in Ej; try apply Z.ltb_ge in Ej; intros Heq.
  - injection Heq as Heq. apply FormatUint_inj in Heq; lia.
  - symmetry in Heq. apply FormatUint_no_sign in Heq; [contradiction | lia].
  - apply FormatUint_no_sign in Heq; [contradiction | lia].
  - apply FormatUint_inj in Heq; lia.
Qed.

End ItoaFacts.

(** X1.  The pid label tells the processes apart: two processes whose pids
    are int32 values and that get the same label values, in either
    collector, have the same pid. *)
Theorem labels_determine_the_pid (p q : process.Process) :
  Snapshot.int32 (process.Pid p) -> Snapshot.int32 (process.Pid q) ->
  (GinProcess.labelsOf p = GinProcess.labelsOf q -> process.Pid p = process.Pid q) /\
  (GinProcessLabeled.labelsOf p = GinProcessLabeled.labelsOf q ->
   process.Pid p = process.Pid q).
Proof.
  unfold Snapshot.int32. intros Hp Hq.
  split; intros Heq; injection Heq as Hpid _;
    apply ItoaFacts.Itoa_inj in Hpid; lia.
Qed.

Lemma labels_determine_the_pid_witness :
  (GinProcess.labelsOf Scenario.noCpu = GinProcess.labelsOf Scenario.noCpu ->
   process.Pid Scenario.noCpu = process.Pid Scenario.noCpu) /\
  (GinProcessLabeled.labelsOf Scenario.noCpu = GinProcessLabeled.labelsOf Scenario.noCpu ->
   process.Pid Scenario.noCpu = process.Pid Scenario.noCpu).
Proof.
  apply (labels_determine_the_pid Scenario.noCpu Scenario.noCpu);
    unfold Snapshot.int32; simpl; lia.
Defined.

(** ** A whole snapshot *)

Module SnapshotFacts.
Import prometheus GinProcessCommon Cycle Snapshot GinProcessFacts.

Lemma fmap_inj_on {A B : Type} (f : A -> B) (l : list A) (x y : A) :
  NoDup (f <$> l) -> x ∈ l -> y ∈ l -> f x = f y -> x = y.
Proof.
  induction l as [|a l IH]; intros Hnd Hx Hy Hf; [now apply not_elem_of_nil in Hx |].
  cbn [fmap list_fmap] in Hnd. apply NoDup_cons in Hnd as [Ha Hnd].
  apply elem_of_cons in Hx as [-> | Hx]; apply elem_of_cons in Hy as [-> | Hy].
  - reflexivity.
  - exfalso. apply Ha. rewrite Hf. apply list_elem_of_fmap. now exists y.
  - exfalso. apply Ha. rewrite <- Hf. apply list_elem_of_fmap. now exists x.
  - now apply IH.
Qed.

Lemma filter_none {A : Type} (P : A -> Prop) `{forall x, Decision (P x)}
  (l : list A) :
  (forall x, x ∈ l -> ~ P x) -> filter P l = [].
Proof.
  intros Hno. destruct (filter P l) as [|x r] eqn:E; [reflexivity |].
  assert (x ∈ filter P l) as Hx by (rewrite E; apply list_elem_of_here).
  apply list_elem_of_filter in Hx as [HP Hx]. now destruct (Hno x Hx).
Qed.

Section Generic.
Variable labelsOf : process.Process -> list string.

(** In a snapshot with distinct pids whose labels determine the pid, no
    two records share their labels. *)
Lemma distinct_pids_identify (procs : list process.Process) :
  NoDup (process.Pid <$> procs) ->
  (forall p q, p ∈ procs -> q ∈ procs -> labelsOf p = labelsOf q ->
               process.Pid p = process.Pid q) ->
  forall p, p ∈ procs -> identifies labelsOf procs p.
Proof.
  intros Hnd Hinj p Hp q Hq HL.
  apply (fmap_inj_on process.Pid procs q p Hnd Hq Hp). now apply Hinj.
Qed.

(** The loop seen from one vector, for a snapshot in which the labels
    identify the records: the vector holds one gauge for each process whose
    read worked. *)
Section OneVector.
Variable ok : process.Process -> bool.
Variable val : process.Process -> float.
Variable proj : GinProcessCollector -> gmap (list string) float.
Hypothesis proj_visit : forall c p,
  proj (visit labelsOf c p) =
    if ok p then <[labelsOf p := val p]> (proj c) else proj c.

Lemma loop_map (procs : list process.Process) (c : GinProcessCollector) :
  proj c = ∅ -> NoDup procs ->
  (forall p, p ∈ procs -> identifies labelsOf procs p) ->
  map_to_list (proj (foldl (visit labelsOf) c procs)) ≡ₚ
    (fun p => (labelsOf p, val p)) <$> filter (fun p => ok p = true) procs.
Proof.
  intros Hc Hnd Hid.
  set (kvs := (fun p => (labelsOf p, val p)) <$> filter (fun p => ok p = true) procs).
  assert (NoDup kvs.*1) as Hkeys.
  { unfold kvs. rewrite <- list_fmap_compose.
    apply NoDup_fmap_2_strong; [| now apply NoDup_filter].
    intros p q [_ Hp]%list_elem_of_filter [_ Hq]%list_elem_of_filter HL.
    now apply (Hid q Hq p Hp). }
  rewrite <- (map_to_list_to_map kvs Hkeys).
  assert (proj (foldl (visit labelsOf) c procs) = list_to_map kvs) as ->;
    [| reflexivity].
  apply map_eq. intros L.
  destruct (list_to_map kvs !! L) as [x|] eqn:E.
  - apply elem_of_list_to_map_2 in E. unfold kvs in E.
    apply list_elem_of_fmap in E as (p & [= -> ->] & [Hok Hp]%list_elem_of_filter).
    apply (loop_lookup_value labelsOf ok val proj proj_visit); auto.
    rewrite Hc. apply lookup_empty.
  - apply not_elem_of_list_to_map in E.
    apply (loop_lookup_unset labelsOf ok val proj proj_visit).
    + rewrite Hc. apply lookup_empty.
    + intros p Hp HL. destruct (ok p) eqn:Hok; [| reflexivity].
      exfalso. apply E. unfold kvs. rewrite <- list_fmap_compose.
      apply list_elem_of_fmap. exists p. split; [now symmetry |].
      now apply list_elem_of_filter.
Qed.

(** Without any assumption on the snapshot: at most one gauge for each
    process whose read worked. *)
Lemma loop_size (procs : list process.Process) :
  forall c,
    (size (proj (foldl (visit labelsOf) c procs)) <=
     size (proj c) + length (filter (fun p => ok p = true) procs))%nat.
Proof.
  induction procs as [|p procs IH]; intros c; [cbn; lia |].
  cbn [foldl]. specialize (IH (visit labelsOf c p)).
  rewrite proj_visit in IH. rewrite filter_cons.
  destruct (ok p) eqn:Hok.
  - rewrite decide_True by reflexivity. cbn [length].
    rewrite map_size_insert in IH.
    destruct (proj c !! labelsOf p); cbn in IH; lia.
  - rewrite decide_False by discriminate. exact IH.
Qed.
End OneVector.

Lemma collect_loop (c : GinProcessCollector) (procs : list process.Process) :
  (collect labelsOf c (procs, None)).1.1 =
    foldl (visit labelsOf)
      {| cpuPercent := Reset (cpuPercent c); memoryMB := Reset (memoryMB c) |} procs.
Proof. reflexivity. Qed.

(** The whole output of a cycle: the CPU vector, then the memory vector,
    each in the order in which it is ranged over. *)
Lemma collect_rendered (c : GinProcessCollector) (procs : list process.Process) :
  NoDup (process.Pid <$> procs) ->
  (forall p q, p ∈ procs -> q ∈ procs -> labelsOf p = labelsOf q ->
               process.Pid p = process.Pid q) ->
  rendered labelsOf c procs (collect labelsOf c (procs, None)).1.2.
Proof.
  intros Hnd Hinj.
  pose proof (distinct_pids_identify procs Hnd Hinj) as Hid.
  pose proof (NoDup_fmap_1 _ _ Hnd) as Hnd'.
  destruct (collect_desc labelsOf c (procs, None)) as [Hd1 Hd2].
  exists (prometheus.Collect (cpuPercent (collect labelsOf c (procs, None)).1.1)),
         (prometheus.Collect (memoryMB (collect labelsOf c (procs, None)).1.1)).
  split; [apply collect_output |].
  unfold prometheus.Collect. rewrite Hd1, Hd2, collect_loop.
  set (c0 := {| cpuPercent := Reset (cpuPercent c); memoryMB := Reset (memoryMB c) |}).
  split.
  - fold (cpuMap (foldl (visit labelsOf) c0 procs)).
    rewrite (loop_map _ _ cpuMap (visit_cpu labelsOf) procs c0 eq_refl Hnd' Hid).
    now rewrite <- list_fmap_compose.
  - fold (memMap (foldl (visit labelsOf) c0 procs)).
    rewrite (loop_map _ _ memMap (visit_mem labelsOf) procs c0 eq_refl Hnd' Hid).
    now rewrite <- list_fmap_compose.
Qed.

Lemma collect_bound (c : GinProcessCollector) (procs : list process.Process) :
  (length (collect labelsOf c (procs, None)).1.2 <=
   length (filter cpuOk procs) + length (filter memoryOk procs))%nat.
Proof.
  rewrite collect_output, length_app. unfold prometheus.Collect.
  rewrite !length_fmap, !length_map_to_list, collect_loop.
  pose proof (loop_size _ _ cpuMap (visit_cpu labelsOf) procs
                {| cpuPercent := Reset (cpuPercent c); memoryMB := Reset (memoryMB c) |}) as H1.
  pose proof (loop_size _ _ memMap (visit_mem labelsOf) procs
                {| cpuPercent := Reset (cpuPercent c); memoryMB := Reset (memoryMB c) |}) as H2.
  unfold cpuMap, memMap in *. cbn [cpuPercent memoryMB Reset gvMetrics] in H1, H2.
  rewrite map_size_empty in H1, H2. unfold cpuOk, memoryOk.
  unfold cpuMap, memMap. lia.
Qed.

(** A cycle depends on the collector through the two descriptors only. *)
Lemma collect_same_desc (c c' : GinProcessCollector)
  (snap : result (list process.Process)) :
  gvDesc (cpuPercent c) = gvDesc (cpuPercent c') ->
  gvDesc (memoryMB c) = gvDesc (memoryMB c') ->
  collect labelsOf c snap = collect labelsOf c' snap.
Proof. intros H1 H2. unfold collect, Reset. now rewrite H1, H2. Qed.

Lemma collect_again (c : GinProcessCollector)
  (prev snap : result (list process.Process)) :
  collect labelsOf (collect labelsOf c prev).1.1 snap = collect labelsOf c snap.
Proof.
  destruct (collect_desc labelsOf c prev) as [H1 H2].
  now apply collect_same_desc.
Qed.

(** Nothing is sent exactly when the enumeration failed or no read of any
    process worked. *)
Lemma collect_nothing (c : GinProcessCollector)
  (snap : result (list process.Process)) :
  (collect labelsOf c snap).1.2 = [] <->
  snap.2 <> None \/
  forall p, p ∈ snap.1 -> errIsNil (process.CPUPercent p) = false /\
                          errIsNil (process.MemoryInfo p) = false.
Proof.
  split.
  - intros Hout. destruct snap as [procs [err|]]; [now left | right].
    rewrite collect_output in Hout. apply app_eq_nil in Hout as [H1 H2].
    apply fmap_nil_inv, map_to_list_empty_iff in H1.
    apply fmap_nil_inv, map_to_list_empty_iff in H2.
    intros p Hp; simpl in Hp. split.
    + destruct (errIsNil (process.CPUPercent p)) eqn:E; [| reflexivity].
      destruct (loop_lookup_set labelsOf _ _ cpuMap (visit_cpu labelsOf) procs
                  {| cpuPercent := Reset (cpuPercent c);
                     memoryMB := Reset (memoryMB c) |} p Hp E) as [x Hx].
      rewrite <- collect_loop in Hx. unfold cpuMap in Hx.
      rewrite H1, lookup_empty in Hx. discriminate.
    + destruct (errIsNil (process.MemoryInfo p)) eqn:E; [| reflexivity].
      destruct (loop_lookup_set labelsOf _ _ memMap (visit_mem labelsOf) procs
                  {| cpuPercent := Reset (cpuPercent c);
                     memoryMB := Reset (memoryMB c) |} p Hp E) as [x Hx].
      rewrite <- collect_loop in Hx. unfold memMap in Hx.
      rewrite H2, lookup_empty in Hx. discriminate.
  - intros [Herr | Hnone].
    + unfold collect. destruct snap.2; [reflexivity | congruence].
    + destruct snap as [procs [err|]]; [reflexivity |]. simpl in Hnone.
      pose proof (collect_bound c procs) as Hb.
      assert (filter cpuOk procs = []) as Hcpu.
      { apply filter_none. intros p Hp Hok. unfold cpuOk in Hok.
        rewrite (proj1 (Hnone p Hp)) in Hok. discriminate. }
      assert (filter memoryOk procs = []) as Hmem.
      { apply filter_none. intros p Hp Hok. unfold memoryOk in Hok.
        rewrite (proj2 (Hnone p Hp)) in Hok. discriminate. }
      rewrite Hcpu, Hmem in Hb.
      destruct (collect labelsOf c (procs, None)).1.2; [reflexivity | simpl in Hb; lia].
Qed.

(** Every gauge sent carries the labels of a process of the snapshot. *)
Lemma collect_labels (c : GinProcessCollector)
  (snap : result (list process.Process)) (m : Metric) :
  m ∈ (collect labelsOf c snap).1.2 ->
  valueType m = GaugeValue /\
  (desc m = gvDesc (cpuPercent c) \/ desc m = gvDesc (memoryMB c)) /\
  exists p, p ∈ snap.1 /\ labelValues m = labelsOf p.
Proof.
  rewrite collect_output. destruct (collect_desc labelsOf c snap) as [Hd1 Hd2].
  intros [Hin | Hin]%elem_of_app;
    apply elem_of_Collect in Hin as (L & x & Hl & ->); simpl;
    (split; [reflexivity |]).
  - split; [now left |].
    apply collect_cpu_inv in Hl as (_ & p & Hp & HL & _). now exists p.
  - split; [now right |].
    apply collect_mem_inv in Hl as (_ & p & Hp & HL & _). now exists p.
Qed.

End Generic.

End SnapshotFacts.

(** X2.  A snapshot in which the pids are int32 values and pairwise
    distinct is rendered in full: what [Collect] sends is a first run of
    gauges followed by a second run; the first run is, in some order, one
    CPU gauge for each process whose CPU read worked, the second is, in
    some order, one memory gauge for each process whose memory read
    worked; each gauge has the value read from its process, and nothing
    else is sent.  For both collectors. *)
Theorem snapshot_with_distinct_pids
  (c : GinProcessCommon.GinProcessCollector) (procs : list process.Process) :
  NoDup (process.Pid <$> procs) ->
  (forall p, p ∈ procs -> Snapshot.int32 (process.Pid p)) ->
  (exists cpus mems,
     (GinProcess.Collect c (procs, None)).1.2 = cpus ++ mems /\
     cpus ≡ₚ Snapshot.cpuGauge GinProcess.labelsOf c
               <$> filter Snapshot.cpuOk procs /\
     mems ≡ₚ Snapshot.memoryGauge GinProcess.labelsOf c
               <$> filter Snapshot.memoryOk procs) /\
  (exists cpus mems,
     (GinProcessLabeled.Collect c (procs, None)).1.2 = cpus ++ mems /\
     cpus ≡ₚ Snapshot.cpuGauge GinProcessLabeled.labelsOf c
               <$> filter Snapshot.cpuOk procs /\
     mems ≡ₚ Snapshot.memoryGauge GinProcessLabeled.labelsOf c
               <$> filter Snapshot.memoryOk procs).
Proof.
  intros Hnd Hrange.
  split; apply SnapshotFacts.collect_rendered; try assumption;
    intros p q Hp Hq HL;
    destruct (labels_determine_the_pid p q (Hrange p Hp) (Hrange q Hq)) as [H1 H2];
    auto.
Qed.

(** Three processes, one without a CPU read and one without a memory
    read: two CPU gauges, then two memory gauges. *)
Lemma snapshot_with_distinct_pids_witness :
  let procs := [Scenario.w3wp0; Scenario.noCpu; Scenario.noMemory] in
  exists cpus mems,
    (GinProcess.Collect GinProcess.Build.1 (procs, None)).1.2 = cpus ++ mems /\
    cpus ≡ₚ [ Snapshot.cpuGauge GinProcess.labelsOf GinProcess.Build.1 Scenario.w3wp0;
              Snapshot.cpuGauge GinProcess.labelsOf GinProcess.Build.1 Scenario.noMemory ] /\
    mems ≡ₚ [ Snapshot.memoryGauge GinProcess.labelsOf GinProcess.Build.1 Scenario.w3wp0;
              Snapshot.memoryGauge GinProcess.labelsOf GinProcess.Build.1 Scenario.noCpu ].
Proof.
  cbv zeta.
  assert (NoDup (process.Pid <$> [Scenario.w3wp0; Scenario.noCpu; Scenario.noMemory]))
    as Hnd.
  { apply (bool_decide_unpack _). vm_compute. exact I. }
  assert (forall p, p ∈ [Scenario.w3wp0; Scenario.noCpu; Scenario.noMemory] ->
                    Snapshot.int32 (process.Pid p)) as Hrange.
  { intros p Hp. unfold Snapshot.int32.
    repeat (apply elem_of_cons in Hp as [-> | Hp]); simpl; try lia.
    now apply not_elem_of_nil in Hp. }
  exact (proj1 (snapshot_with_distinct_pids GinProcess.Build.1 _ Hnd Hrange)).
Defined.

(** X3.  A cycle does not depend on the cycles before it: after any
    earlier [Collect], on any snapshot [prev], a [Collect] on [snap]
    leaves the same collector, sends the same gauges and returns the same
    error as it does on the collector before that earlier call.  For both
    collectors. *)
Theorem cycle_forgets_the_cycles_before
  (c : GinProcessCommon.GinProcessCollector)
  (prev snap : result (list process.Process)) :
  GinProcess.Collect (GinProcess.Collect c prev).1.1 snap
    = GinProcess.Collect c snap /\
  GinProcessLabeled.Collect (GinProcessLabeled.Collect c prev).1.1 snap
    = GinProcessLabeled.Collect c snap.
Proof. split; apply SnapshotFacts.collect_again. Qed.

(** X4.  [Collect] sends nothing exactly when the enumeration failed or
    neither read worked for any process of the snapshot (an empty snapshot
    included).  For both collectors. *)
Theorem nothing_sent_iff_nothing_read
  (c : GinProcessCommon.GinProcessCollector)
  (snap : result (list process.Process)) :
  ((GinProcess.Collect c snap).1.2 = [] <->
   snap.2 <> None \/
   forall p, p ∈ snap.1 -> errIsNil (process.CPUPercent p) = false /\
                           errIsNil (process.MemoryInfo p) = false) /\
  ((GinProcessLabeled.Collect c snap).1.2 = [] <->
   snap.2 <> None \/
   forall p, p ∈ snap.1 -> errIsNil (process.CPUPercent p) = false /\
                           errIsNil (process.MemoryInfo p) = false).
Proof. split; apply SnapshotFacts.collect_nothing. Qed.

(** X5.  [Collect] never sends more than one gauge per successful read:
    the number of gauges sent is at most the number of processes whose CPU
    read worked plus the number whose memory read worked, hence at most
    twice the size of the snapshot.  For both collectors. *)
Theorem at_most_one_gauge_per_read
  (c : GinProcessCommon.GinProcessCollector) (procs : list process.Process) :
  let reads := (length (filter Snapshot.cpuOk procs)
                + length (filter Snapshot.memoryOk procs))%nat in
  (length (GinProcess.Collect c (procs, None)).1.2 <= reads)%nat /\
  (length (GinProcessLabeled.Collect c (procs, None)).1.2 <= reads)%nat /\
  (reads <= 2 * length procs)%nat.
Proof.
  cbv zeta. split; [apply SnapshotFacts.collect_bound |].
  split; [apply SnapshotFacts.collect_bound |].
  pose proof (length_filter Snapshot.cpuOk procs).
  pose proof (length_filter Snapshot.memoryOk procs). lia.
Qed.

(** X6.  On a collector whose vectors were made with the label names of
    [Build], every measurement [Collect] sends is a gauge of one of the two
    vectors, carries the label values of a process of the snapshot, and has
    as many label values as its descriptor has label names (two, or five
    in the collector with five labels). *)
Theorem gauges_match_their_label_names
  (c : GinProcessCommon.GinProcessCollector)
  (snap : result (list process.Process)) (m : prometheus.Metric) :
  (Snapshot.madeWith GinProcess.labelNames c ->
   m ∈ (GinProcess.Collect c snap).1.2 ->
   prometheus.valueType m = prometheus.GaugeValue /\
   (exists p, p ∈ snap.1 /\ prometheus.labelValues m = GinProcess.labelsOf p) /\
   length (prometheus.labelValues m)
     = length (prometheus.variableLabels (prometheus.desc m)) /\
   length (prometheus.labelValues m) = 2%nat) /\
  (Snapshot.madeWith GinProcessLabeled.labelNames c ->
   m ∈ (GinProcessLabeled.Collect c snap).1.2 ->
   prometheus.valueType m = prometheus.GaugeValue /\
   (exists p, p ∈ snap.1 /\ prometheus.labelValues m = GinProcessLabeled.labelsOf p) /\
   length (prometheus.labelValues m)
     = length (prometheus.variableLabels (prometheus.desc m)) /\
   length (prometheus.labelValues m) = 5%nat).
Proof.
  split; intros [Hcpu Hmem] Hin;
    apply SnapshotFacts.collect_labels in Hin as (Hg & Hd & p & Hp & HL);
    (split; [exact Hg |]); (split; [now exists p |]);
    rewrite HL; (split; [| reflexivity]);
    destruct Hd as [-> | ->]; rewrite ?Hcpu, ?Hmem; reflexivity.
Qed.

Lemma gauges_match_their_label_names_witness :
  let m := prometheus.MustNewConstMetric
             (prometheus.gvDesc (GinProcessCommon.memoryMB GinProcessLabeled.Build.1))
             prometheus.GaugeValue 100%float
             ["100"; "w3wp"; "IIS APPPOOL\web"; "w3wp.exe -ap web"; "running"] in
  m ∈ (GinProcessLabeled.Collect GinProcessLabeled.Build.1 ([Scenario.w3wp0], None)).1.2 /\
  length (prometheus.labelValues m)
    = length (prometheus.variableLabels (prometheus.desc m)).
Proof.
  intros m.
  assert (m ∈ (GinProcessLabeled.Collect GinProcessLabeled.Build.1
                 ([Scenario.w3wp0], None)).1.2) as Hin.
  { unfold GinProcessLabeled.Collect.
    rewrite GinProcessCycle.collect_single by reflexivity.
    apply list_elem_of_further, list_elem_of_here. }
  split; [exact Hin |].
  destruct (gauges_match_their_label_names GinProcessLabeled.Build.1
              ([Scenario.w3wp0], None) m) as [_ H].
  exact (proj1 (proj2 (proj2 (H (conj eq_refl eq_refl) Hin)))).
Defined.

(** ** One cycle of GinWebAppCollector as a list *)

Module CycleFacts.
Import prometheus GinWebApp Run Expected GinWebAppFacts.

Lemma flat_map_kept {T : Type} (body : T -> M unit) (keep : T -> bool)
  (metrics : T -> list Metric) (data : list T) :
  (forall d, recordMetrics body d = if keep d then metrics d else []) ->
  flat_map (recordMetrics body) data = flat_map metrics (List.filter keep data).
Proof.
  intros Hbody. induction data as [|d data IH]; [reflexivity |].
  cbn [flat_map List.filter]. rewrite Hbody, IH.
  destruct (keep d); reflexivity.
Qed.

Lemma filter_all {T : Type} (data : list T) :
  List.filter (fun _ => true) data = data.
Proof. induction data as [|d data IH]; [reflexivity |]. cbn. now rewrite IH. Qed.

Lemma sourceMetrics_delivered {T : Type} (coll : option pdh.Collector)
  (read : pdh.Collector -> result (list T)) (body : T -> M unit) :
  sourceMetrics coll read body = flat_map (recordMetrics body) (delivered coll read).
Proof.
  unfold sourceMetrics, delivered. destruct coll as [h|]; [| reflexivity].
  destruct (errIsNil (read h)); reflexivity.
Qed.

Section Sources.
Variable mapUnicodeToLower : string -> string.
Variable unrepresentable : float -> Z.

Lemma recordMetrics_aspNet (d : aspNetValues.t) :
  recordMetrics (emitAspNet mapUnicodeToLower) d =
    if keepAspNet mapUnicodeToLower d then aspNetMetrics d else [].
Proof.
  unfold recordMetrics, emitAspNet, keepAspNet.
  destruct (Go.Contains _ _); reflexivity.
Qed.

Lemma recordMetrics_process (d : processValues.t) :
  recordMetrics (emitProcess unrepresentable) d = processMetrics unrepresentable d.
Proof. reflexivity. Qed.

Lemma recordMetrics_netClr (d : netClrValues.t) :
  recordMetrics emitNetClr d = if keepNetClr d then netClrMetrics d else [].
Proof.
  unfold recordMetrics, emitNetClr, keepNetClr.
  destruct (Go.Contains _ _); reflexivity.
Qed.

Lemma Collect_cycleMetrics (host : Host) (c : GinWebAppCollector) (e : Effects) :
  Collect host mapUnicodeToLower unrepresentable c e =
    (None,
     {| ch := ch e ++ cycleMetrics mapUnicodeToLower unrepresentable host c;
        logged := logged e;
        opened := opened e;
        sampled := sampled e ++ sourceSamples (aspNetColl c)
                   ++ sourceSamples (processColl c)
                   ++ sourceSamples (netClrColl c) |}).
Proof.
  rewrite Collect_run. unfold cycleMetrics.
  rewrite !sourceMetrics_delivered.
  rewrite (flat_map_kept _ _ _ _ recordMetrics_aspNet).
  rewrite (flat_map_kept _ _ _ _ recordMetrics_netClr).
  rewrite (flat_map_kept _ (fun _ => true) _ _ recordMetrics_process), filter_all.
  reflexivity.
Qed.

Lemma wellFormed_aspNet (d : aspNetValues.t) (m : Metric) :
  m ∈ aspNetMetrics d -> wellFormed m.
Proof.
  unfold aspNetMetrics. rewrite !elem_of_cons, elem_of_nil.
  intros [-> | [-> | [-> | []]]]; unfold wellFormed; simpl;
    (split; [reflexivity |]); (split; [reflexivity |]);
    split; intros H; first [reflexivity | discriminate H].
Qed.

Lemma wellFormed_process (d : processValues.t) (m : Metric) :
  m ∈ processMetrics unrepresentable d -> wellFormed m.
Proof.
  unfold processMetrics. rewrite !elem_of_cons, elem_of_nil.
  intros [-> | [-> | [-> | []]]]; unfold wellFormed; simpl;
    (split; [reflexivity |]); (split; [reflexivity |]);
    split; intros H; discriminate H.
Qed.

Lemma wellFormed_netClr (d : netClrValues.t) (m : Metric) :
  m ∈ netClrMetrics d -> wellFormed m.
Proof.
  unfold netClrMetrics. rewrite !elem_of_cons, elem_of_nil.
  intros [-> | [-> | []]]; unfold wellFormed; simpl;
    (split; [reflexivity |]); (split; [reflexivity |]);
    split; intros H; discriminate H.
Qed.

Lemma wellFormed_cycle (host : Host) (c : GinWebAppCollector) (m : Metric) :
  m ∈ cycleMetrics mapUnicodeToLower unrepresentable host c -> wellFormed m.
Proof.
  unfold cycleMetrics. rewrite !elem_of_app.
  intros [H | [H | H]]; apply list_elem_of_In, in_flat_map in H as (d & _ & H);
    apply list_elem_of_In in H.
  - now apply (wellFormed_aspNet d).
  - now apply (wellFormed_process d).
  - now apply (wellFormed_netClr d).
Qed.

Lemma no_live_source_no_effect_core (host : Host) (c : GinWebAppCollector)
  (e : Effects) :
  aspNetColl c = None -> processColl c = None -> netClrColl c = None ->
  Collect host mapUnicodeToLower unrepresentable c e = (None, e).
Proof.
  intros H1 H2 H3. rewrite Collect_run, H1, H2, H3. simpl.
  now rewrite !app_nil_r, Effects_eta.
Qed.

End Sources.

End CycleFacts.

(** X7.  One cycle of [GinWebAppCollector.Collect], in full.  It returns
    [nil], logs nothing, opens nothing, samples the live sources in the
    order ASP.NET, Process, .NET CLR, and appends to the channel, in this
    order: for each ASP.NET record delivered whose lower-cased name does not
    contain "__total__", two gauges and a counter; for each Process record
    delivered, three gauges; for each .NET CLR record delivered whose name
    does not contain "_Global_", two gauges.  A source delivers its records
    when its collector is not nil and its sample returned no error, and
    none otherwise. *)
Theorem webapp_cycle_in_full (host : GinWebApp.Host)
  (mapUnicodeToLower : string -> string) (unrepresentable : float -> Z)
  (c : GinWebApp.GinWebAppCollector) (e : GinWebApp.Effects) :
  GinWebApp.Collect host mapUnicodeToLower unrepresentable c e =
    (None,
     {| GinWebApp.ch :=
          GinWebApp.ch e
          ++ Expected.cycleMetrics mapUnicodeToLower unrepresentable host c;
        GinWebApp.logged := GinWebApp.logged e;
        GinWebApp.opened := GinWebApp.opened e;
        GinWebApp.sampled :=
          GinWebApp.sampled e
          ++ Run.sourceSamples (GinWebApp.aspNetColl c)
          ++ Run.sourceSamples (GinWebApp.processColl c)
          ++ Run.sourceSamples (GinWebApp.netClrColl c) |}).
Proof.
  pose proof (CycleFacts.Collect_cycleMetrics mapUnicodeToLower unrepresentable
                host c e) as H.
  exact H.
Qed.

(** X8.  Every measurement [GinWebAppCollector.Collect] sends is well
    formed: it has as many label values as its descriptor has label names
    (so [MustNewConstMetric] is never called with a wrong number of
    labels), its name starts with "windows_ginwebapp_", and it is of the
    counter kind exactly when it is the request total. *)
Theorem webapp_measurements_are_well_formed (host : GinWebApp.Host)
  (mapUnicodeToLower : string -> string) (unrepresentable : float -> Z)
  (c : GinWebApp.GinWebAppCollector) (m : prometheus.Metric) :
  m ∈ GinWebApp.ch
        (GinWebApp.Collect host mapUnicodeToLower unrepresentable c
           GinWebApp.noEffects).2 ->
  Expected.wellFormed m.
Proof.
  rewrite CycleFacts.Collect_cycleMetrics. cbn [snd GinWebApp.ch GinWebApp.noEffects].
  rewrite app_nil_l. apply CycleFacts.wellFormed_cycle.
Qed.

Lemma webapp_measurements_are_well_formed_witness :
  Expected.wellFormed
    (GinWebApp.counter "requests_total" "Total requests processed" ["app_path"]
       900%float ["MyApp"]).
Proof.
  apply (webapp_measurements_are_well_formed
           (Scenario.hostWith []
              ([Scenario.aspRecord "_LM_W3SVC_1_ROOT_MyApp" 42 1 900], None)
              ([], None) ([], None))
           Scenario.asIs Scenario.saturate Scenario.allLive).
  vm_compute. do 2 apply list_elem_of_further. apply list_elem_of_here.
Defined.

(** X9.  A collector without a live source (never built, or built on a
    host where nothing opened) collects nothing: [Collect] returns [nil]
    and leaves the channel, the log and pdh untouched. *)
Theorem no_live_source_no_effect (host : GinWebApp.Host)
  (mapUnicodeToLower : string -> string) (unrepresentable : float -> Z)
  (c : GinWebApp.GinWebAppCollector) (e : GinWebApp.Effects) :
  GinWebApp.aspNetColl c = None -> GinWebApp.processColl c = None ->
  GinWebApp.netClrColl c = None ->
  GinWebApp.Collect host mapUnicodeToLower unrepresentable c e = (None, e).
Proof.
  intros H1 H2 H3.
  now apply CycleFacts.no_live_source_no_effect_core.
Qed.

Lemma no_live_source_no_effect_witness :
  GinWebApp.Collect
    (Scenario.hostWith [] ([Scenario.aspRecord "MyApp" 1 2 3], None) ([], None) ([], None))
    Scenario.asIs Scenario.saturate GinWebApp.NewGinWebApp GinWebApp.noEffects
  = (None, GinWebApp.noEffects).
Proof. now apply no_live_source_no_effect. Defined.

(** ** Build, Collect and Close together *)

Module LifecycleFacts.
Import GinWebApp Run GinWebAppShell.

Lemma closeIfLive_elem (coll : option pdh.Collector) (h : pdh.Collector) :
  h ∈ closeIfLive coll <-> coll = Some h.
Proof.
  destruct coll as [h'|]; simpl.
  - rewrite list_elem_of_singleton. split; congruence.
  - rewrite elem_of_nil. split; [tauto | discriminate].
Qed.

Lemma Close_elem (c : GinWebAppCollector) (h : pdh.Collector) :
  h ∈ (Close c).1 <->
  aspNetColl c = Some h \/ processColl c = Some h \/ netClrColl c = Some h.
Proof. unfold Close; simpl. now rewrite !elem_of_app, !closeIfLive_elem. Qed.

End LifecycleFacts.

(** X10.  [Close] returns [nil] and closes exactly the pdh collectors that
    a [Collect] cycle samples, in the same order: the sources that are not
    nil, ASP.NET first, then Process, then .NET CLR. *)
Theorem Close_closes_what_Collect_samples (host : GinWebApp.Host)
  (mapUnicodeToLower : string -> string) (unrepresentable : float -> Z)
  (c : GinWebApp.GinWebAppCollector) :
  (GinWebAppShell.Close c).2 = None /\
  (GinWebAppShell.Close c).1 =
    GinWebApp.sampled
      (GinWebApp.Collect host mapUnicodeToLower unrepresentable c
         GinWebApp.noEffects).2.
Proof.
  split; [reflexivity |]. rewrite GinWebAppFacts.Collect_run.
  destruct c as [lg [a|] [p|] [n|]]; reflexivity.
Qed.

(** X11.  With a pdh that returns no collector beside an error, [Build]
    and [Close] balance: a pdh collector is closed by [Close] exactly when
    one of the [NewCollector] calls [Build] made returned it.  No collector
    that was opened is left unclosed, and nothing else is closed. *)
Theorem Build_and_Close_balance (host : GinWebApp.Host)
  (c : GinWebApp.GinWebAppCollector) (lg : slog.Logger) (h : pdh.Collector) :
  Run.nilOnError host ->
  let b := GinWebApp.Build host c lg GinWebApp.noEffects in
  h ∈ (GinWebAppShell.Close b.1.1).1 <->
  exists call, call ∈ GinWebApp.opened b.2 /\
               (GinWebApp.NewCollector host call.1 call.2).1 = Some h.
Proof.
  intros Hnil b. unfold b. rewrite LifecycleFacts.Close_elem.
  rewrite GinWebAppBuild.Build_run. cbn [fst snd GinWebApp.aspNetColl
    GinWebApp.processColl GinWebApp.netClrColl GinWebApp.opened GinWebApp.noEffects].
  rewrite app_nil_l.
  set (primary := GinWebApp.NewCollector host "ASP.NET Applications"
                    (GinWebApp.InstancesAll host)).
  set (fallback := GinWebApp.NewCollector host "ASP.NET v4.0.30319"
                     (GinWebApp.InstancesAll host)).
  set (proc := GinWebApp.NewCollector host "Process" ["w3wp"]).
  set (clr := GinWebApp.NewCollector host ".NET CLR Memory" ["w3wp"]).
  assert (errIsNil primary = false -> primary.1 = None) as Hprim
    by (intros E; now apply Hnil).
  split.
  - intros [H | [H | H]].
    + destruct (errIsNil primary) eqn:E.
      * exists ("ASP.NET Applications", GinWebApp.InstancesAll host).
        split; [| exact H]. apply list_elem_of_here.
      * exists ("ASP.NET v4.0.30319", GinWebApp.InstancesAll host).
        split; [| exact H]. apply list_elem_of_further, list_elem_of_here.
    + exists ("Process", ["w3wp"]). split; [| exact H].
      rewrite !elem_of_app, !elem_of_cons. tauto.
    + exists (".NET CLR Memory", ["w3wp"]). split; [| exact H].
      rewrite !elem_of_app, !elem_of_cons. tauto.
  - intros (call & Hcall & Hh).
    rewrite !elem_of_app in Hcall.
    destruct Hcall as [Hcall | [Hcall | Hcall]].
    + apply list_elem_of_singleton in Hcall as ->. cbn [fst snd] in Hh.
      fold primary in Hh. left.
      destruct (errIsNil primary) eqn:E; [exact Hh |].
      rewrite (Hprim eq_refl) in Hh. discriminate.
    + destruct (errIsNil primary) eqn:E; [now apply not_elem_of_nil in Hcall |].
      apply list_elem_of_singleton in Hcall as ->. now left.
    + rewrite !elem_of_cons, elem_of_nil in Hcall.
      destruct Hcall as [-> | [-> | []]]; [right; left | right; right]; exact Hh.
Qed.

Lemma Build_and_Close_balance_witness :
  let host := Scenario.hostWith ["ASP.NET v4.0.30319"; "Process"]
                ([], None) ([], None) ([], None) in
  let b := GinWebApp.Build host GinWebApp.NewGinWebApp (slog.NewLogger "test")
             GinWebApp.noEffects in
  (GinWebAppShell.Close b.1.1).1 =
    [ {| pdh.object := "ASP.NET v4.0.30319"; pdh.instances := ["*"] |};
      {| pdh.object := "Process"; pdh.instances := ["w3wp"] |} ] /\
  exists call, call ∈ GinWebApp.opened b.2 /\
               (GinWebApp.NewCollector host call.1 call.2).1
               = Some {| pdh.object := "Process"; pdh.instances := ["w3wp"] |}.
Proof.
  cbv zeta. split; [reflexivity |].
  apply (Build_and_Close_balance _ GinWebApp.NewGinWebApp (slog.NewLogger "test")).
  - intros obj inst. unfold Scenario.hostWith; simpl.
    destruct (bool_decide _); [discriminate | reflexivity].
  - vm_compute. apply list_elem_of_further, list_elem_of_here.
Defined.

(** X12.  On a host where no object opens (and pdh returns no collector
    beside its errors), the collector still goes through its life without
    an error: [Build] returns [nil] after exactly three warnings, every
    later [Collect] returns [nil] and does nothing, and [Close] closes
    nothing. *)
Theorem nothing_opens_nothing_breaks (host : GinWebApp.Host)
  (mapUnicodeToLower : string -> string) (unrepresentable : float -> Z)
  (c : GinWebApp.GinWebAppCollector) (lg : slog.Logger) (e e' : GinWebApp.Effects) :
  Run.nilOnError host ->
  (forall obj inst, errIsNil (GinWebApp.NewCollector host obj inst) = false) ->
  let b := GinWebApp.Build host c lg e in
  b.1.2 = None /\
  GinWebApp.logged b.2 =
    GinWebApp.logged e
    ++ [ Run.warning "Failed to initialize ASP.NET collector"
           (GinWebApp.NewCollector host "ASP.NET v4.0.30319"
              (GinWebApp.InstancesAll host)).2;
         Run.warning "Failed to initialize Process collector"
           (GinWebApp.NewCollector host "Process" ["w3wp"]).2;
         Run.warning "Failed to initialize .NET CLR collector"
           (GinWebApp.NewCollector host ".NET CLR Memory" ["w3wp"]).2 ] /\
  GinWebApp.Collect host mapUnicodeToLower unrepresentable b.1.1 e' = (None, e') /\
  GinWebAppShell.Close b.1.1 = ([], None).
Proof.
  intros Hnil Hfail b. unfold b. rewrite GinWebAppBuild.Build_run.
  cbn [fst snd GinWebApp.logged]. rewrite !Hfail. cbn [orb].
  split; [reflexivity |]. split; [reflexivity |].
  assert (forall obj inst, (GinWebApp.NewCollector host obj inst).1 = None) as Hnone.
  { intros obj inst. apply Hnil, Hfail. }
  split.
  - apply CycleFacts.no_live_source_no_effect_core; apply Hnone.
  - unfold GinWebAppShell.Close.
    cbn [GinWebApp.aspNetColl GinWebApp.processColl GinWebApp.netClrColl].
    now rewrite !Hnone.
Qed.

Lemma nothing_opens_nothing_breaks_witness :
  let host := Scenario.hostWith [] ([Scenario.aspRecord "MyApp" 1 2 3], None)
                ([], None) ([], None) in
  let b := GinWebApp.Build host GinWebApp.NewGinWebApp (slog.NewLogger "test")
             GinWebApp.noEffects in
  length (GinWebApp.logged b.2) = 3%nat /\
  GinWebApp.Collect host Scenario.asIs Scenario.saturate b.1.1 GinWebApp.noEffects
    = (None, GinWebApp.noEffects).
Proof.
  cbv zeta. split; [reflexivity |].
  refine (proj1 (proj2 (proj2 (nothing_opens_nothing_breaks _ Scenario.asIs
            Scenario.saturate GinWebApp.NewGinWebApp (slog.NewLogger "test")
            GinWebApp.noEffects GinWebApp.noEffects _ _)))).
  - intros obj inst _. reflexivity.
  - intros obj inst. reflexivity.
Defined.

(** ** Instance names and pids *)

Module RewriteFacts.
Import Go GoFacts.

Lemma length_append (a b : string) :
  String.length (a +:+ b) = (String.length a + String.length b)%nat.
Proof.
  induction a as [|c a IH]; [reflexivity |].
  rewrite append_cons. cbn [String.length]. now rewrite IH.
Qed.

Lemma HasPrefix_length (s p : string) :
  HasPrefix s p = true -> (String.length p <= String.length s)%nat.
Proof.
  intros [t ->]%HasPrefix_inv. rewrite length_append. lia.
Qed.

(** Replacing by something no longer never lengthens; [skip] bytes of the
    input are dropped besides. *)
Lemma replaceFrom_length (old new : string) :
  (String.length new <= String.length old)%nat ->
  forall s skip,
    (String.length (replaceFrom old new skip s) + Nat.min skip (String.length s)
     <= String.length s)%nat.
Proof.
  intros Hlen. induction s as [|c s IH]; intros skip.
  - cbn. lia.
  - cbn [replaceFrom]. destruct skip as [|k].
    + destruct (HasPrefix (String c s) old) eqn:E.
      * apply HasPrefix_length in E. cbn [String.length] in E |- *.
        rewrite length_append.
        specialize (IH (String.length old - 1)%nat). lia.
      * cbn [String.length]. specialize (IH O). lia.
    + cbn [String.length]. specialize (IH k). lia.
Qed.

Lemma ReplaceAll_length (s old new : string) :
  (String.length new <= String.length old)%nat ->
  (String.length (ReplaceAll s old new) <= String.length s)%nat.
Proof.
  intros Hlen. unfold ReplaceAll. destruct old as [|a old]; [lia |].
  destruct (String.eqb (String a old) new); [lia |].
  pose proof (replaceFrom_length (String a old) new Hlen s O). lia.
Qed.

End RewriteFacts.

(** X13.  [normalizeAspNetInstanceName] never lengthens an instance name:
    each rewrite puts a shorter text in the place of a token. *)
Theorem normalizeAspNetInstanceName_never_lengthens (name : string) :
  (String.length (GinWebApp.normalizeAspNetInstanceName name)
   <= String.length name)%nat.
Proof.
  unfold GinWebApp.normalizeAspNetInstanceName.
  etransitivity; [apply RewriteFacts.ReplaceAll_length; cbn; lia |].
  apply RewriteFacts.ReplaceAll_length. cbn. lia.
Qed.

(** X14.  End to end for an application of the default site: an ASP.NET
    record named "_LM_W3SVC_1_ROOT_" followed by [app], where the site
    token does not occur in [app] and the lower-cased name does not
    contain "__total__", is sent as two gauges and a counter labelled
    [app], with the record's request rate, executing requests and request
    total (whatever the other sources and records do). *)
Theorem default_site_application_end_to_end (host : GinWebApp.Host)
  (mapUnicodeToLower : string -> string) (unrepresentable : float -> Z)
  (c : GinWebApp.GinWebAppCollector) (e : GinWebApp.Effects)
  (h : pdh.Collector) (d : GinWebApp.aspNetValues.t) (app : string) :
  GinWebApp.aspNetColl c = Some h ->
  errIsNil (GinWebApp.collectAspNet host h) = true ->
  d ∈ (GinWebApp.collectAspNet host h).1 ->
  GinWebApp.aspNetValues.Name d = "_LM_W3SVC_1_ROOT_" +:+ app ->
  Go.Contains app "_LM_W3SVC_" = false ->
  Go.Contains (Go.ToLower mapUnicodeToLower ("_LM_W3SVC_1_ROOT_" +:+ app))
    "__total__" = false ->
  let sent := GinWebApp.ch
                (GinWebApp.Collect host mapUnicodeToLower unrepresentable c e).2 in
  GinWebApp.gauge "requests_sec" "Requests per second" ["app_path"]
    (GinWebApp.aspNetValues.RequestsSec d) [app] ∈ sent /\
  GinWebApp.gauge "requests_executing" "Current executing requests" ["app_path"]
    (GinWebApp.aspNetValues.RequestsExecuting d) [app] ∈ sent /\
  GinWebApp.counter "requests_total" "Total requests processed" ["app_path"]
    (GinWebApp.aspNetValues.RequestsTotal d) [app] ∈ sent.
Proof.
  intros Hc Hok Hd Hname Happ Htotal sent. unfold sent.
  rewrite GinWebAppFacts.Collect_run. cbn [snd GinWebApp.ch].
  assert (GinWebApp.normalizeAspNetInstanceName (GinWebApp.aspNetValues.Name d) = app)
    as Hnorm.
  { rewrite Hname. unfold GinWebApp.normalizeAspNetInstanceName.
    rewrite GoFacts.ReplaceAll_occurrence by discriminate.
    rewrite (GoFacts.ReplaceAll_absent app)
      by apply (GoFacts.Contains_longer app "_LM_W3SVC_" "1_ROOT_"), Happ.
    rewrite GoFacts.append_nil. now apply GoFacts.ReplaceAll_absent. }
  assert (forall m, m ∈ Run.recordMetrics (GinWebApp.emitAspNet mapUnicodeToLower) d ->
            m ∈ GinWebApp.ch e
                ++ Run.sourceMetrics (GinWebApp.aspNetColl c)
                     (GinWebApp.collectAspNet host)
                     (GinWebApp.emitAspNet mapUnicodeToLower)
                ++ Run.sourceMetrics (GinWebApp.processColl c)
                     (GinWebApp.collectProcess host)
                     (GinWebApp.emitProcess unrepresentable)
                ++ Run.sourceMetrics (GinWebApp.netClrColl c)
                     (GinWebApp.collectNetClr host) GinWebApp.emitNetClr) as Hsent.
  { intros m Hm. rewrite !elem_of_app. right; left.
    now apply (GinWebAppFacts.sourceMetrics_record _ _ _ h d). }
  repeat split; apply Hsent; unfold Run.recordMetrics, GinWebApp.emitAspNet;
    rewrite Hname, Htotal, <- Hname, Hnorm; simpl; rewrite !elem_of_cons; tauto.
Qed.

(** The scenario of the design: "_LM_W3SVC_1_ROOT_MyApp" with 42 requests
    per second. *)
Lemma default_site_application_end_to_end_witness :
  GinWebApp.gauge "requests_sec" "Requests per second" ["app_path"]
    42%float ["MyApp"]
  ∈ GinWebApp.ch
      (GinWebApp.Collect
         (Scenario.hostWith []
            ([Scenario.aspRecord "_LM_W3SVC_1_ROOT_MyApp" 42 1 900], None)
            ([], None) ([], None))
         Scenario.asIs Scenario.saturate Scenario.allLive GinWebApp.noEffects).2.
Proof.
  refine (proj1 (default_site_application_end_to_end
            (Scenario.hostWith []
               ([Scenario.aspRecord "_LM_W3SVC_1_ROOT_MyApp" 42 1 900], None)
               ([], None) ([], None))
            Scenario.asIs Scenario.saturate Scenario.allLive GinWebApp.noEffects
            _ (Scenario.aspRecord "_LM_W3SVC_1_ROOT_MyApp" 42 1 900) "MyApp"
            eq_refl eq_refl _ eq_refl eq_refl eq_refl)).
  apply list_elem_of_here.
Defined.

(** X15.  The ASP.NET filter on a name of ASCII bytes: when the name
    contains the letters of "__total__" in any mix of upper and lower case,
    the record is not kept and no measurement is sent for it (the Unicode
    case tables play no part). *)
Theorem total_in_any_case_is_filtered (mapUnicodeToLower : string -> string)
  (d : GinWebApp.aspNetValues.t) (before marker after : string) :
  GinWebApp.aspNetValues.Name d = before +:+ marker +:+ after ->
  Go.isASCII (GinWebApp.aspNetValues.Name d) = true ->
  Go.lowerBytes marker = "__total__" ->
  Expected.keepAspNet mapUnicodeToLower d = false /\
  Run.recordMetrics (GinWebApp.emitAspNet mapUnicodeToLower) d = [].
Proof.
  intros Hname Hascii Hmarker.
  assert (Go.Contains (Go.ToLower mapUnicodeToLower (GinWebApp.aspNetValues.Name d))
            "__total__" = true) as Hc.
  { rewrite Hname in Hascii |- *.
    now apply GoFacts.Contains_ToLower_any_case. }
  split.
  - unfold Expected.keepAspNet. now rewrite Hc.
  - unfold Run.recordMetrics, GinWebApp.emitAspNet. now rewrite Hc.
Qed.

Lemma total_in_any_case_is_filtered_witness :
  Expected.keepAspNet Scenario.asIs (Scenario.aspRecord "App__ToTaL__x" 1 2 3) = false /\
  Run.recordMetrics (GinWebApp.emitAspNet Scenario.asIs)
    (Scenario.aspRecord "App__ToTaL__x" 1 2 3) = [].
Proof.
  apply (total_in_any_case_is_filtered Scenario.asIs
           (Scenario.aspRecord "App__ToTaL__x" 1 2 3) "App" "__ToTaL__" "x");
    reflexivity.
Defined.

Module PidFacts.
Import Go Decimal.

Lemma formatBits_length (fuel : nat) :
  forall u acc,
    (String.length (formatBits fuel u acc) <= fuel + String.length acc)%nat.
Proof.
  induction fuel as [|k IH]; intros u acc; [cbn; lia |].
  cbn [formatBits]. destruct (u <? 10).
  - cbn [String.length]. lia.
  - specialize (IH (u / 10) (String (digitByte (u mod 10)) acc)).
    cbn [String.length] in IH. lia.
Qed.

Lemma truncate_negativeFraction (f : float) :
  Float64Edge.negativeFraction f = true -> truncate f = Some 0.
Proof.
  unfold Float64Edge.negativeFraction, truncate.
  destruct (Prim2SF f) as [s | s | | s m e]; try discriminate.
  - destruct s; [reflexivity | discriminate].
  - destruct s; [| discriminate].
    intros [He%Z.ltb_lt Hm%Z.ltb_lt]%andb_true_iff.
    rewrite Z.shiftl_div_pow2 by lia.
    rewrite Z.div_small by lia. reflexivity.
Qed.

End PidFacts.

(** X16.  For every float whatever, negative, infinite and NaN included,
    [formatPID] returns the text of an unsigned integer below 2^64: between
    one and twenty decimal digits, no sign, no fraction, no superfluous
    zero. *)
Theorem formatPID_is_always_unsigned_text (unrepresentable : float -> Z) (f : float) :
  let text := GinWebApp.formatPID unrepresentable f in
  Decimal.isUnsignedText text = true /\
  (1 <= String.length text <= 20)%nat /\
  0 <= Decimal.value text < 2 ^ 64.
Proof.
  cbv zeta. unfold GinWebApp.formatPID.
  pose proof (ConversionFacts.uint64_range unrepresentable f) as Hr.
  destruct (StrconvFacts.FormatUint_decimal _ Hr) as [Ht Hv].
  split; [exact Ht |]. split; [| now rewrite Hv].
  split.
  - unfold Decimal.isUnsignedText in Ht. apply andb_true_iff in Ht as [_ Hz].
    destruct (Go.FormatUint _); [discriminate Hz | cbn; lia].
  - pose proof (PidFacts.formatBits_length 20
                  (Go.uint64_of_float64 unrepresentable f) "") as H.
    exact H.
Qed.

(** X17.  The fraction of a pid never shows: two non-negative floats with
    the same integer part, below 2^64, get the same pid text. *)
Theorem formatPID_ignores_the_fraction (unrepresentable : float -> Z)
  (f g : float) (n : Z) :
  Float64.integerPart f n -> Float64.integerPart g n -> n < 2 ^ 64 ->
  GinWebApp.formatPID unrepresentable f = GinWebApp.formatPID unrepresentable g.
Proof.
  intros Hf Hg Hn. unfold GinWebApp.formatPID.
  rewrite (ConversionFacts.uint64_integerPart _ f n Hf Hn).
  now rewrite (ConversionFacts.uint64_integerPart _ g n Hg Hn).
Qed.

Lemma formatPID_ignores_the_fraction_witness :
  GinWebApp.formatPID Scenario.saturate 4123.25%float
  = GinWebApp.formatPID Scenario.saturate 4123.75%float.
Proof.
  apply (formatPID_ignores_the_fraction Scenario.saturate _ _ 4123);
    [ | | reflexivity]; vm_compute; (split; [discriminate | reflexivity]).
Defined.

(** X18.  A negative float above -1, and minus zero, gives the pid "0":
    the conversion cuts the fraction off before it looks at the sign. *)
Theorem formatPID_of_a_negative_fraction (unrepresentable : float -> Z) (f : float) :
  Float64Edge.negativeFraction f = true ->
  GinWebApp.formatPID unrepresentable f = "0".
Proof.
  intros H. unfold GinWebApp.formatPID, Go.uint64_of_float64.
  now rewrite (PidFacts.truncate_negativeFraction f H).
Qed.

Lemma formatPID_of_a_negative_fraction_witness :
  GinWebApp.formatPID Scenario.saturate (-0.5)%float = "0".
Proof. now apply formatPID_of_a_negative_fraction. Defined.

(** ** Records under the same labels *)

Module OverwriteFacts.
Import prometheus GinProcessCommon Snapshot GinProcessFacts.

Section Generic.
Variable labelsOf : process.Process -> list string.

Section OneVector.
Variable ok : process.Process -> bool.
Variable val : process.Process -> float.
Variable proj : GinProcessCollector -> gmap (list string) float.
Hypothesis proj_visit : forall c p,
  proj (visit labelsOf c p) =
    if ok p then <[labelsOf p := val p]> (proj c) else proj c.

(** Processes that do not set the tuple [L] leave its gauge as it is. *)
Lemma loop_lookup_keep (procs : list process.Process) :
  forall c L,
    (forall q, q ∈ procs -> labelsOf q = L -> ok q = false) ->
    proj (foldl (visit labelsOf) c procs) !! L = proj c !! L.
Proof.
  induction procs as [|q procs IH]; intros c L Hno; [reflexivity |].
  cbn [foldl]. rewrite IH.
  - rewrite proj_visit. destruct (ok q) eqn:E; [| reflexivity].
    apply lookup_insert_ne. intros HL.
    rewrite (Hno q (list_elem_of_here _ _) HL) in E. discriminate.
  - intros q' Hq'. apply Hno. now apply list_elem_of_further.
Qed.

Lemma loop_lookup_last (before after : list process.Process)
  (p : process.Process) (c : GinProcessCollector) :
  ok p = true ->
  (forall q, q ∈ after -> labelsOf q = labelsOf p -> ok q = false) ->
  proj (foldl (visit labelsOf) c (before ++ p :: after)) !! labelsOf p
  = Some (val p).
Proof.
  intros Hok Hafter. rewrite foldl_app. cbn [foldl].
  rewrite (loop_lookup_keep after _ _ Hafter), proj_visit, Hok.
  apply lookup_insert_eq.
Qed.
End OneVector.

Lemma collect_last_cpu (c : GinProcessCollector)
  (before after : list process.Process) (p : process.Process) :
  errIsNil (process.CPUPercent p) = true ->
  (forall q, q ∈ after -> labelsOf q = labelsOf p ->
             errIsNil (process.CPUPercent q) = false) ->
  cpuGauge labelsOf c p ∈ (collect labelsOf c (before ++ p :: after, None)).1.2.
Proof.
  intros Hok Hafter. rewrite collect_output. apply elem_of_app; left.
  apply elem_of_Collect. exists (labelsOf p), (process.CPUPercent p).1.
  destruct (collect_desc labelsOf c (before ++ p :: after, None)) as [-> _].
  split; [| reflexivity].
  apply (loop_lookup_last _ _ cpuMap (visit_cpu labelsOf)); assumption.
Qed.

Lemma collect_last_memory (c : GinProcessCollector)
  (before after : list process.Process) (p : process.Process) :
  errIsNil (process.MemoryInfo p) = true ->
  (forall q, q ∈ after -> labelsOf q = labelsOf p ->
             errIsNil (process.MemoryInfo q) = false) ->
  memoryGauge labelsOf c p ∈ (collect labelsOf c (before ++ p :: after, None)).1.2.
Proof.
  intros Hok Hafter. rewrite collect_output. apply elem_of_app; right.
  apply elem_of_Collect. exists (labelsOf p), (rssMB (process.MemoryInfo p).1).
  destruct (collect_desc labelsOf c (before ++ p :: after, None)) as [_ ->].
  split; [| reflexivity].
  apply (loop_lookup_last _ _ memMap (visit_mem labelsOf)); assumption.
Qed.

End Generic.

End OverwriteFacts.

(** X19.  When several records of a snapshot have the same labels, the
    last one whose read worked gives the gauge: a process [p] whose CPU
    read (memory read) worked, followed by no record with the same labels
    whose CPU read (memory read) worked, has its own value sent, whatever
    came before it.  For both collectors. *)
Theorem last_record_under_the_labels_wins
  (c : GinProcessCommon.GinProcessCollector)
  (before after : list process.Process) (p : process.Process) :
  let snap := (before ++ p :: after, None) in
  (errIsNil (process.CPUPercent p) = true ->
   (forall q, q ∈ after -> GinProcess.labelsOf q = GinProcess.labelsOf p ->
              errIsNil (process.CPUPercent q) = false) ->
   Snapshot.cpuGauge GinProcess.labelsOf c p ∈ (GinProcess.Collect c snap).1.2) /\
  (errIsNil (process.MemoryInfo p) = true ->
   (forall q, q ∈ after -> GinProcess.labelsOf q = GinProcess.labelsOf p ->
              errIsNil (process.MemoryInfo q) = false) ->
   Snapshot.memoryGauge GinProcess.labelsOf c p ∈ (GinProcess.Collect c snap).1.2) /\
  (errIsNil (process.CPUPercent p) = true ->
   (forall q, q ∈ after ->
              GinProcessLabeled.labelsOf q = GinProcessLabeled.labelsOf p ->
              errIsNil (process.CPUPercent q) = false) ->
   Snapshot.cpuGauge GinProcessLabeled.labelsOf c p
     ∈ (GinProcessLabeled.Collect c snap).1.2) /\
  (errIsNil (process.MemoryInfo p) = true ->
   (forall q, q ∈ after ->
              GinProcessLabeled.labelsOf q = GinProcessLabeled.labelsOf p ->
              errIsNil (process.MemoryInfo q) = false) ->
   Snapshot.memoryGauge GinProcessLabeled.labelsOf c p
     ∈ (GinProcessLabeled.Collect c snap).1.2).
Proof.
  cbv zeta. repeat split; intros Hok Hafter.
  - now apply OverwriteFacts.collect_last_cpu.
  - now apply OverwriteFacts.collect_last_memory.
  - now apply OverwriteFacts.collect_last_cpu.
  - now apply OverwriteFacts.collect_last_memory.
Qed.

(** Two records for pid 100: the gauge carries the CPU share of the
    second. *)
Lemma last_record_under_the_labels_wins_witness :
  let first := Scenario.w3wp0 in
  let second :=
    {| process.Pid := 100;
       process.Name := ("w3wp", None);
       process.Username := ("", Some Scenario.readError);
       process.Cmdline := ("", Some Scenario.readError);
       process.Status := ([], Some Scenario.readError);
       process.CPUPercent := (50%float, None);
       process.MemoryInfo := ({| process.RSS := 0 |}, Some Scenario.readError) |} in
  prometheus.MustNewConstMetric
    (prometheus.gvDesc (GinProcessCommon.cpuPercent GinProcess.Build.1))
    prometheus.GaugeValue 50%float ["100"; "w3wp"]
  ∈ (GinProcess.Collect GinProcess.Build.1 ([first; second], None)).1.2.
Proof.
  intros first second.
  refine (proj1 (last_record_under_the_labels_wins GinProcess.Build.1
                   [first] [] second) eq_refl _).
  intros q Hq. now apply not_elem_of_nil in Hq.
Defined.
